(** * plantuml: the rendering client and its HTTP request handler

    A shallow embedding of [manager.go] (package [plantuml]) and of
    [api/manager.go] (package [api]), with the parts of Go's [strings],
    [strconv] and [net/url] packages these two files call.

    Go strings are byte sequences: they are modelled as [string], whose
    characters are the 8-bit [ascii]. *)

From Stdlib Require Import ZArith List Bool Ascii String Lia.
Import ListNotations.

Open Scope string_scope.
Open Scope Z_scope.

(** ** Outcome of a Go computation that may panic *)

Inductive Go (A : Type) : Type :=
| Ret (a : A)
| Panic (reason : string).

Arguments Ret {A} a.
Arguments Panic {A} reason.

Definition index_out_of_range : string := "index out of range".
Definition nil_dereference : string := "invalid memory address or nil pointer dereference".

(** [xs[i]] on a slice, with Go's bounds check. *)
Definition index {A : Type} (xs : list A) (i : Z) : Go A :=
  if i <? 0 then Panic index_out_of_range
  else match nth_error xs (Z.to_nat i) with
       | Some x => Ret x
       | None => Panic index_out_of_range
       end.

(** [len(xs)] *)
Definition len {A : Type} (xs : list A) : Z := Z.of_nat (List.length xs).

(** ** Package [strings] *)

Module strings.

(** Membership of a byte in a cutset.  Every cutset this program passes is
    an ASCII literal, for which Go trims byte by byte. *)
Fixpoint inCutset (c : ascii) (cutset : string) : bool :=
  match cutset with
  | EmptyString => false
  | String d rest => Ascii.eqb c d || inCutset c rest
  end.

Fixpoint TrimLeft (s cutset : string) : string :=
  match s with
  | EmptyString => EmptyString
  | String c rest => if inCutset c cutset then TrimLeft rest cutset else s
  end.

Fixpoint TrimRight (s cutset : string) : string :=
  match s with
  | EmptyString => EmptyString
  | String c rest =>
      match TrimRight rest cutset with
      | EmptyString => if inCutset c cutset then EmptyString else String c EmptyString
      | kept => String c kept
      end
  end.

Definition Trim (s cutset : string) : string :=
  TrimRight (TrimLeft s cutset) cutset.

Definition HasPrefix (s pre : string) : bool := String.prefix pre s.

(** Pieces of [s] between the non-overlapping occurrences of a non-empty
    [sep], scanned from the left; [skip] counts the bytes of the current
    occurrence still to be dropped. *)
Fixpoint genSplit (s sep : string) (skip : nat) : list string :=
  match s with
  | EmptyString => [EmptyString]
  | String c rest =>
      match skip with
      | S k => genSplit rest sep k
      | O =>
          if String.prefix sep s
          then EmptyString :: genSplit rest sep (String.length sep - 1)
          else match genSplit rest sep 0 with
               | piece :: more => String c piece :: more
               | [] => [String c EmptyString]
               end
      end
  end.

Fixpoint explode (s : string) : list string :=
  match s with
  | EmptyString => []
  | String c rest => String c EmptyString :: explode rest
  end.

Definition Split (s sep : string) : list string :=
  match sep with
  | EmptyString => explode s
  | _ => genSplit s sep 0
  end.

End strings.

(** ** Package [strconv] *)

Module strconv.

(** [int] is 64 bits wide on the platforms the service is built for. *)
Definition intSize : Z := 64.
Definition maxInt : Z := 2 ^ (intSize - 1) - 1.
Definition minInt : Z := - 2 ^ (intSize - 1).

Definition digit (c : ascii) : option Z :=
  let n := Z.of_nat (nat_of_ascii c) in
  if (48 <=? n) && (n <=? 57) then Some (n - 48) else None.

(** Decimal value of a run of digits, [None] at the first other byte. *)
Fixpoint digits (s : string) (acc : Z) : option Z :=
  match s with
  | EmptyString => Some acc
  | String c rest =>
      match digit c with
      | Some d => digits rest (acc * 10 + d)
      | None => None
      end
  end.

(** [Atoi]: an optional sign, then one or more decimal digits, the value
    within the range of [int]; [None] stands for a non-nil error. *)
Definition Atoi (s : string) : option Z :=
  match s with
  | EmptyString => None
  | String c rest =>
      let neg := Ascii.eqb c "-" in
      let body := if neg || Ascii.eqb c "+" then rest else s in
      match body with
      | EmptyString => None
      | _ =>
          match digits body 0 with
          | None => None
          | Some n =>
              let v := if neg then - n else n in
              if (minInt <=? v) && (v <=? maxInt) then Some v else None
          end
      end
  end.

End strconv.

(** ** Package [plantuml]: errors and data *)

Definition LF : string := String (ascii_of_nat 10) EmptyString.

(** The package's sentinel errors. *)
Inductive PackageErr : Type :=
| ErrInternalError
| ErrServerIsUnavailable
| ErrInvalidDiagramFormat
| ErrInvalidDiagramDescription
| ErrInvalidPlantUMLAddress.

Definition PackageErr_eqb (a b : PackageErr) : bool :=
  match a, b with
  | ErrInternalError, ErrInternalError
  | ErrServerIsUnavailable, ErrServerIsUnavailable
  | ErrInvalidDiagramFormat, ErrInvalidDiagramFormat
  | ErrInvalidDiagramDescription, ErrInvalidDiagramDescription
  | ErrInvalidPlantUMLAddress, ErrInvalidPlantUMLAddress => true
  | _, _ => false
  end.

(** Errors produced outside the package, kept as the raw error.
    [UrlParseError] stands for the [*url.Error] of [ParseRequestURI], whose
    fields are the operation [parse], the address and the error it wraps:
    only the text of the wrapped error is kept. *)
Inductive RawErr : Type :=
| UrlParseError (reason : string)
| RequestConstructionError (msg : string)
| TransportError (msg : string)
| BodyReadError (msg : string).

Record Error : Type := newError
  { PackageError : option PackageErr;
    RawError : option RawErr }.

(** The field [RawError] of [SyntaxError] is named [SyntaxRawError] here:
    [Error] has a field of the same name. *)
Record SyntaxError : Type := mkSyntaxError
  { SyntaxRawError : string;
    LineNumber : Z;
    LineWithError : string }.

(** [DiagramFormat] is an [int]; the three constants come from [iota]. *)
Definition DiagramFormat : Type := Z.
Definition DiagramFormatTXT : DiagramFormat := 0.
Definition DiagramFormatPNG : DiagramFormat := 1.
Definition DiagramFormatSVG : DiagramFormat := 2.

(** ** [getErrorLineNumber] *)

Definition marker : string := "[From string (line ".
Definition lastLineCutset : string := " Syntax error: ".
Definition trailerCutset : string := ") ]".

Definition getErrorLineNumber (diagramAsTXT : string) : Go (option SyntaxError) :=
  let lines := strings.Split diagramAsTXT LF in
  match index lines 0 with
  | Panic r => Panic r
  | Ret firstLine =>
      match index lines (len lines - 1) with
      | Panic r => Panic r
      | Ret lastLine =>
          if negb (strings.HasPrefix firstLine marker) then Ret None
          else
            let lastLine := strings.TrimLeft lastLine lastLineCutset in
            let firstLine := strings.TrimLeft firstLine marker in
            let firstLine := strings.TrimRight firstLine trailerCutset in
            match strconv.Atoi firstLine with
            | None =>
                Ret (Some {| LineNumber := 0;
                             LineWithError := lastLine;
                             SyntaxRawError := diagramAsTXT |})
            | Some lineNumber =>
                Ret (Some {| LineNumber := lineNumber;
                             LineWithError := lastLine;
                             SyntaxRawError := diagramAsTXT |})
            end
      end
  end.

(** ** The remote renderer

    The renderer is an oracle: what an HTTP call yields is a function of
    the calls made before it and of the call itself.  Every call made is
    appended to the history, which is the only state [Render] threads. *)

Inductive Call : Type :=
| PostForm (link text : string)
| Get (link : string).

(** Result of [ioutil.ReadAll] on the response body. *)
Inductive ReadResult : Type :=
| ReadOk (bytes : string)
| ReadFailed (e : RawErr).

(** [RequestURL] is [resp.Request.URL.String()], the address of the last
    request after redirects were followed. *)
Record Response : Type := mkResponse
  { StatusCode : Z;
    RequestURL : string;
    Body : ReadResult }.

Inductive HttpResult : Type :=
| HttpOk (resp : Response)
| HttpFailed (e : RawErr).

Definition Network : Type := list Call -> Call -> HttpResult.

(** State (the call history) and panics. *)
Definition M (A : Type) : Type := list Call -> Go A * list Call.

Definition ret {A : Type} (a : A) : M A := fun h => (Ret a, h).

Definition bind {A B : Type} (m : M A) (k : A -> M B) : M B :=
  fun h =>
    match m h with
    | (Ret a, h') => k a h'
    | (Panic r, h') => (Panic r, h')
    end.

Definition lift {A : Type} (g : Go A) : M A := fun h => (g, h).

Definition panic {A : Type} (reason : string) : M A := lift (Panic reason).

Definition call (net : Network) (c : Call) : M HttpResult :=
  fun h => (Ret (net h c), (h ++ [c])%list).

Declare Scope go_scope.
Delimit Scope go_scope with go.
Notation "x <- m ;; k" := (bind m (fun x => k))
  (at level 61, m at next level, right associativity) : go_scope.
Notation "' pat <- m ;; k" := (bind m (fun x => match x with pat => k end))
  (at level 61, pat pattern, m at next level, right associativity) : go_scope.
Open Scope go_scope.

Record manager : Type := mkManager { serverAddr : string }.

(** What [Render] returns: the Go triple [([]byte, *SyntaxError, error)]. *)
Record RenderResult : Type := mkRenderResult
  { diagramFile : option string;
    syntaxError : option SyntaxError;
    err : option Error }.

Section Client.

Variable net : Network.

Definition statusOK (code : Z) : bool := (code =? 200) || (code =? 400).

Definition getDiagramID (link diagramDescription : string)
  : M (string * option Error) :=
  r <- call net (PostForm link diagramDescription) ;;
  match r with
  | HttpFailed e => ret ("", Some (newError (Some ErrInternalError) (Some e)))
  | HttpOk resp =>
      if negb (statusOK (StatusCode resp))
      then ret ("", Some (newError (Some ErrServerIsUnavailable) None))
      else
        let urlParts := strings.Split (RequestURL resp) "/" in
        imgID <- lift (index urlParts (len urlParts - 1)) ;;
        ret (imgID, None)
  end.

Definition downloadDiagram (link : string)
  : M (option string * bool * option Error) :=
  r <- call net (Get link) ;;
  match r with
  | HttpFailed e => ret (None, false, Some (newError (Some ErrInternalError) (Some e)))
  | HttpOk resp =>
      if negb (statusOK (StatusCode resp))
      then ret (None, false, Some (newError (Some ErrServerIsUnavailable) None))
      else
        match Body resp with
        | ReadFailed e =>
            ret (None, false, Some (newError (Some ErrInternalError) (Some e)))
        | ReadOk file =>
            if StatusCode resp =? 400
            then ret (Some file, true, None)
            else ret (Some file, false, None)
        end
  end.

Definition formatURLPart (format : DiagramFormat) : option string :=
  if format =? DiagramFormatTXT then Some "txt"
  else if format =? DiagramFormatPNG then Some "png"
  else if format =? DiagramFormatSVG then Some "svg"
  else None.

Definition failure (e : PackageErr) : RenderResult :=
  mkRenderResult None None (Some (newError (Some e) None)).

Definition Render (m : manager) (diagramDescription : string)
           (format : DiagramFormat) : M RenderResult :=
  let diagramDescription := strings.Trim diagramDescription " " in
  if Z.of_nat (String.length diagramDescription) =? 0
  then ret (failure ErrInvalidDiagramDescription)
  else
    match formatURLPart format with
    | None => ret (failure ErrInvalidDiagramFormat)
    | Some part =>
        (* 1. the rendered diagram's identifier *)
        let link := serverAddr m ++ "/form" in
        '(imgID, e) <- getDiagramID link diagramDescription ;;
        match e with
        | Some e => ret (mkRenderResult None None (Some e))
        | None =>
            (* 2. the diagram as TXT *)
            let link := serverAddr m ++ "/txt/" ++ imgID in
            '(file, hasSyntaxError, e) <- downloadDiagram link ;;
            match e with
            | Some e => ret (mkRenderResult None None (Some e))
            | None =>
                (* 3. the syntax error, when the probe signalled one *)
                found <-
                  (if (hasSyntaxError : bool)
                   then lift (getErrorLineNumber
                                (match file with Some b => b | None => "" end))
                   else ret None) ;;
                match found with
                | Some se =>
                    ret (mkRenderResult None (Some se)
                           (Some (newError (Some ErrInvalidDiagramDescription) None)))
                | None =>
                    (* 4. the diagram in the required format *)
                    if format =? DiagramFormatTXT
                    then ret (mkRenderResult file None None)
                    else
                      let link := serverAddr m ++ "/" ++ part ++ "/" ++ imgID in
                      '(file, _, e) <- downloadDiagram link ;;
                      match e with
                      | Some e => ret (mkRenderResult None None (Some e))
                      | None => ret (mkRenderResult file None None)
                      end
                end
            end
        end
    end.

End Client.

(** ** Package [net/url]: [ParseRequestURI]

    [NewManager] validates the server address with [url.ParseRequestURI]
    and keeps only its error.  The function is [parse] with
    [viaRequest = true]; the branches below are those of that case, and an
    error is given by the reason [parse] reports, which [ParseRequestURI]
    wraps with the operation and the address. *)

Module url.

Record URL : Type := mkURL
  { Scheme : string;
    Opaque : string;
    Host : string;
    Path : string;
    RawQuery : string;
    ForceQuery : bool;
    OmitHost : bool }.

Definition byte (c : ascii) : Z := Z.of_nat (nat_of_ascii c).

Fixpoint stringContainsCTLByte (s : string) : bool :=
  match s with
  | EmptyString => false
  | String c rest =>
      (byte c <? 32) || (byte c =? 127) || stringContainsCTLByte rest
  end.

Definition isLetter (c : ascii) : bool :=
  ((97 <=? byte c) && (byte c <=? 122)) || ((65 <=? byte c) && (byte c <=? 90)).

Definition isSchemeMark (c : ascii) : bool :=
  ((48 <=? byte c) && (byte c <=? 57))
  || Ascii.eqb c "+" || Ascii.eqb c "-" || Ascii.eqb c ".".

(** The loop of [getScheme]: [seen] is [rawURL[:i]] and [rest] is
    [rawURL[i:]]. *)
Fixpoint getSchemeLoop (rawURL seen rest : string) : RawErr + string * string :=
  match rest with
  | EmptyString => inr ("", rawURL)
  | String c tail =>
      if isLetter c then getSchemeLoop rawURL (seen ++ String c "") tail
      else if isSchemeMark c then
        match seen with
        | EmptyString => inr ("", rawURL)
        | _ => getSchemeLoop rawURL (seen ++ String c "") tail
        end
      else if Ascii.eqb c ":" then
        match seen with
        | EmptyString => inl (UrlParseError "missing protocol scheme")
        | _ => inr (seen, tail)
        end
      else inr ("", rawURL)
  end.

Definition getScheme (rawURL : string) : RawErr + string * string :=
  getSchemeLoop rawURL "" rawURL.

Definition lowerByte (c : ascii) : ascii :=
  if (65 <=? byte c) && (byte c <=? 90)
  then ascii_of_nat (nat_of_ascii c + 32)
  else c.

Fixpoint ToLower (s : string) : string :=
  match s with
  | EmptyString => EmptyString
  | String c rest => String (lowerByte c) (ToLower rest)
  end.

Fixpoint Count (s : string) (c : ascii) : Z :=
  match s with
  | EmptyString => 0
  | String d rest => (if Ascii.eqb c d then 1 else 0) + Count rest c
  end.

(** [strings.Cut(s, sep)] for a one-byte separator: the text before the
    first [sep] and the text after it. *)
Fixpoint Cut (s : string) (sep : ascii) : string * string :=
  match s with
  | EmptyString => ("", "")
  | String c rest =>
      if Ascii.eqb c sep then ("", rest)
      else let '(before, after) := Cut rest sep in (String c before, after)
  end.

Fixpoint HasSuffixByte (s : string) (c : ascii) : bool :=
  match s with
  | EmptyString => false
  | String d EmptyString => Ascii.eqb c d
  | String _ rest => HasSuffixByte rest c
  end.

Fixpoint dropLast (s : string) : string :=
  match s with
  | EmptyString => EmptyString
  | String _ EmptyString => EmptyString
  | String c rest => String c (dropLast rest)
  end.

Definition unhex (c : ascii) : option Z :=
  let n := byte c in
  if (48 <=? n) && (n <=? 57) then Some (n - 48)
  else if (97 <=? n) && (n <=? 102) then Some (n - 97 + 10)
  else if (65 <=? n) && (n <=? 70) then Some (n - 65 + 10)
  else None.

(** [unescape(s, encodePath)]: every percent sign must start a
    two-digit hexadecimal escape. *)
Fixpoint unescapePath (s : string) : RawErr + string :=
  match s with
  | EmptyString => inr ""
  | String c rest =>
      if Ascii.eqb c "%" then
        match rest with
        | String a (String b rest') =>
            match unhex a, unhex b with
            | Some hi, Some lo =>
                match unescapePath rest' with
                | inr out => inr (String (ascii_of_nat (Z.to_nat (hi * 16 + lo))) out)
                | inl e => inl e
                end
            | _, _ => inl (UrlParseError "invalid URL escape")
            end
        | _ => inl (UrlParseError "invalid URL escape")
        end
      else
        match unescapePath rest with
        | inr out => inr (String c out)
        | inl e => inl e
        end
  end.

Section Parse.

(** [parseAuthority], which [parse] calls on the text between [//] and the
    next slash of an address with a scheme, has changed between Go
    releases: its outcome (an error or the host) is a parameter. *)
Variable parseAuthority : string -> RawErr + string.

Definition setPath (u : URL) (p : string) : RawErr + URL :=
  match unescapePath p with
  | inl e => inl e
  | inr path =>
      inr (mkURL (Scheme u) (Opaque u) (Host u) path
             (RawQuery u) (ForceQuery u) (OmitHost u))
  end.

Definition ParseRequestURI (rawURL : string) : RawErr + URL :=
  if stringContainsCTLByte rawURL
  then inl (UrlParseError "net/url: invalid control character in URL")
  else if String.eqb rawURL ""
  then inl (UrlParseError "empty url")
  else if String.eqb rawURL "*"
  then inr (mkURL "" "" "" "*" "" false false)
  else
    match getScheme rawURL with
    | inl e => inl e
    | inr (scheme, rest) =>
        let scheme := ToLower scheme in
        let '(rest, rawQuery, forceQuery) :=
          if HasSuffixByte rest "?" && (Count rest "?" =? 1)
          then (dropLast rest, "", true)
          else let '(before, after) := Cut rest "?" in (before, after, false) in
        if negb (strings.HasPrefix rest "/") then
          if negb (String.eqb scheme "")
          then inr (mkURL scheme rest "" "" rawQuery forceQuery false)
          else inl (UrlParseError "invalid URI for request")
        else if negb (String.eqb scheme "") && strings.HasPrefix rest "//" then
          let authority := substring 2 (String.length rest - 2) rest in
          let '(authority, rest) :=
            if 0 <? Count authority "/"
            then let '(before, after) := Cut authority "/" in
                 (before, String "/" after)
            else (authority, "") in
          match parseAuthority authority with
          | inl e => inl e
          | inr host =>
              setPath (mkURL scheme "" host "" rawQuery forceQuery false) rest
          end
        else
          setPath (mkURL scheme "" "" "" rawQuery forceQuery
                     (negb (String.eqb scheme ""))) rest
    end.

End Parse.

End url.

(** ** [NewManager] of package [plantuml]: the client, or the error *)

Definition NewManager (parseAuthority : string -> RawErr + string)
           (plantUMLServerAddr : string) : option manager * option Error :=
  match url.ParseRequestURI parseAuthority plantUMLServerAddr with
  | inl e => (None, Some (newError (Some ErrInvalidPlantUMLAddress) (Some e)))
  | inr _ => (Some (mkManager plantUMLServerAddr), None)
  end.

(** ** Package [api]: the request handler *)

Module api.

Record prmsRenderDiagram : Type := mkPrms
  { Data : string;
    Format : string }.

(** The map sent as [error_data] with code 3. *)
Record ErrorData : Type := mkErrorData
  { syntax_error_line : Z;
    line_with_error : string;
    raw : string }.

Inductive ResponseBody : Type :=
| Envelope (ok : bool) (error_code : Z) (error_data : option ErrorData)
| Bytes (file : string).

Record Reply : Type := mkReply
  { status : Z;
    body : ResponseBody }.

Definition StatusOK : Z := 200.
Definition StatusInternalServerError : Z := 500.

Definition sendErr (errorCode : Z) (errorData : option ErrorData) : M Reply :=
  ret (mkReply StatusInternalServerError (Envelope false errorCode errorData)).

Definition formatOf (name : string) : option DiagramFormat :=
  if String.eqb name "svg" then Some DiagramFormatSVG
  else if String.eqb name "png" then Some DiagramFormatPNG
  else if String.eqb name "txt" then Some DiagramFormatTXT
  else None.

Definition isInvalidDescription (e : Error) : bool :=
  match PackageError e with
  | Some pe => PackageErr_eqb pe ErrInvalidDiagramDescription
  | None => false
  end.

(** The handler after [Render] has returned.  Reading a field of
    [syntaxErr] dereferences the pointer. *)
Definition respond (r : RenderResult) : M Reply :=
  match err r with
  | Some e =>
      if isInvalidDescription e then
        match syntaxError r with
        | None => panic nil_dereference
        | Some syntaxErr =>
            sendErr 3 (Some (mkErrorData (LineNumber syntaxErr)
                               (LineWithError syntaxErr)
                               (SyntaxRawError syntaxErr)))
        end
      else sendErr 4 None
  | None =>
      ret (mkReply StatusOK
             (Bytes (match diagramFile r with Some b => b | None => "" end)))
  end.

(** [decoded] is the outcome of [decoder.Decode(&prms)]: [None] when the
    request body is not a JSON document of the expected shape. *)
Definition handlerRenderDiagram (net : Network) (client : manager)
           (decoded : option prmsRenderDiagram) : M Reply :=
  match decoded with
  | None => sendErr 2 None
  | Some prms =>
      match formatOf (Format prms) with
      | None => sendErr 4 None
      | Some format =>
          r <- Render net client (Data prms) format ;;
          respond r
      end
  end.

End api.

(** ** The spec's vocabulary for what [Render] returns *)

Inductive RenderOutcome : Type :=
| Success (artifact : string)
| SyntaxFailure (e : SyntaxError)
| OperationalFailure (kind : PackageErr).

(** Reading of the Go triple: no error is a success; an error with a
    syntax error attached is a syntax failure; any other error is an
    operational failure of the kind its package error names (an error
    without a package error reads as the internal error, as [Error()]
    does). *)
Definition outcome (r : RenderResult) : RenderOutcome :=
  match err r, syntaxError r with
  | None, _ => Success (match diagramFile r with Some b => b | None => "" end)
  | Some _, Some se => SyntaxFailure se
  | Some e, None =>
      OperationalFailure
        (match PackageError e with Some k => k | None => ErrInternalError end)
  end.

(** ** Vocabulary of the statements *)

(** First and last line of a body, as [getErrorLineNumber] takes them. *)
Definition firstLine (body : string) : string := hd "" (strings.Split body LF).
Definition lastLine (body : string) : string := last (strings.Split body LF) "".

(** Last segment of an address, as [getDiagramID] takes it. *)
Definition lastSegment (address : string) : string :=
  last (strings.Split address "/") "".

(** The space character only, which is what [Render] trims. *)
Fixpoint allSpaces (s : string) : bool :=
  match s with
  | EmptyString => true
  | String c rest => Ascii.eqb c " " && allSpaces rest
  end.

(** White space in the sense of Go's [unicode.IsSpace], on single bytes:
    tab, line feed, vertical tab, form feed, carriage return, space. *)
Definition isSpace (c : ascii) : bool :=
  let n := Z.of_nat (nat_of_ascii c) in
  ((9 <=? n) && (n <=? 13)) || (n =? 32).

Fixpoint allWhitespace (s : string) : bool :=
  match s with
  | EmptyString => true
  | String c rest => isSpace c && allWhitespace rest
  end.

Definition TAB : string := String (ascii_of_nat 9) EmptyString.

(** The text between the marker and the trailer, in the spec's words: what
    follows the marker at the start of the line, up to the first closing
    parenthesis, closing bracket or space. *)
Fixpoint upToTrailer (s : string) : string :=
  match s with
  | EmptyString => EmptyString
  | String c rest =>
      if strings.inCutset c trailerCutset then EmptyString
      else String c (upToTrailer rest)
  end.

Definition spec_lineNumberText (line : string) : string :=
  upToTrailer (substring (String.length marker)
                 (String.length line - String.length marker) line).

(** *** Renderers used as concrete inputs *)

Definition client0 : manager := mkManager "http://renderer".

(** A renderer that cannot be reached. *)
Definition unreachable : Network :=
  fun _ _ => HttpFailed (TransportError "connection refused").

(** A renderer that redirects the submission to [/png/ID], answers the
    plaintext probe with status 400 and [probeBody], and any other fetch
    with status 200 and [image]. *)
Definition renderer400 (probeBody image : string) : Network :=
  fun _ c =>
    match c with
    | PostForm _ _ => HttpOk (mkResponse 200 "http://renderer/png/ID" (ReadOk ""))
    | Get link =>
        if String.eqb link "http://renderer/txt/ID"
        then HttpOk (mkResponse 400 link (ReadOk probeBody))
        else HttpOk (mkResponse 200 link (ReadOk image))
    end.

Definition body5 : string :=
  "[From string (line 5) ]" ++ LF ++ "@startuml" ++ LF
  ++ " Syntax error: expected '@enduml'".

Definition lineE5 : string := "[From string (line e5) ]".

Definition request5 : api.prmsRenderDiagram := api.mkPrms "Bob -> Alice" "png".

Definition calls5 : list Call :=
  [PostForm "http://renderer/form" "Bob -> Alice"; Get "http://renderer/txt/ID"].

(** A renderer that answers the probe with status 200 and [body]. *)
Definition renderer200 (body : string) : Network :=
  fun _ c =>
    match c with
    | PostForm _ _ => HttpOk (mkResponse 200 "http://renderer/png/ID" (ReadOk ""))
    | Get link => HttpOk (mkResponse 200 link (ReadOk body))
    end.

(** A renderer that answers the submission and the probe, and refuses the
    format-specific fetch. *)
Definition fetchRefused : Network :=
  fun _ c =>
    match c with
    | PostForm _ _ => HttpOk (mkResponse 200 "http://renderer/png/ID" (ReadOk ""))
    | Get link =>
        if String.eqb link "http://renderer/txt/ID"
        then HttpOk (mkResponse 200 link (ReadOk "Bob->Alice"))
        else HttpFailed (TransportError "fetch refused")
    end.

(** An authority parser that accepts nothing. *)
Definition noAuthority : string -> RawErr + string :=
  fun _ => inl (UrlParseError "invalid authority").

(** The syntax error [getErrorLineNumber] builds from a body whose first
    line carries the marker. *)
Definition parsedError (body : string) : SyntaxError :=
  {| SyntaxRawError := body;
     LineNumber :=
       match strconv.Atoi
               (strings.TrimRight (strings.TrimLeft (firstLine body) marker)
                  trailerCutset) with
       | Some n => n
       | None => 0
       end;
     LineWithError := strings.TrimLeft (lastLine body) lastLineCutset |}.

(** A result that carries an error only. *)
Definition errorOnly (e : Error) : RenderResult := mkRenderResult None None (Some e).

(** Step 4 of [Render] for a format other than TXT. *)
Definition lastStep (net : Network) (link : string) : M RenderResult :=
  '(file, _, e) <- downloadDiagram net link ;;
  match e with
  | Some e => ret (mkRenderResult None None (Some e))
  | None => ret (mkRenderResult file None None)
  end.

(** ** [Error()]: the digested text of an error *)

Definition PackageErr_text (k : PackageErr) : string :=
  match k with
  | ErrInternalError => "internal error"
  | ErrServerIsUnavailable => "server is unavailable"
  | ErrInvalidDiagramFormat => "diagram output format is invalid"
  | ErrInvalidDiagramDescription =>
      "there is a syntax error in diagram description or the diagram description is empty"
  | ErrInvalidPlantUMLAddress => "invalid PlantUML server address"
  end.

(** The method [Error] of [*Error].  The text of a raw error is the
    business of the library that raised it: [rawText] gives it. *)
Definition Error_Error (rawText : RawErr -> string) (e : Error) : string :=
  match PackageError e with
  | Some k => PackageErr_text k
  | None =>
      match RawError e with
      | Some raw => rawText raw
      | None => PackageErr_text ErrInternalError
      end
  end.

(** ** The paths through [Render], as a relation *)

Definition callLink (c : Call) : string :=
  match c with
  | PostForm link _ => link
  | Get link => link
  end.

Section Paths.

Variable net : Network.

(** What one [downloadDiagram] returns after the calls in [h]. *)
Inductive Fetched (h : list Call) (link : string)
  : option string * bool * option Error -> Prop :=
| FetchFailed (e : RawErr) :
    net h (Get link) = HttpFailed e ->
    Fetched h link (None, false, Some (newError (Some ErrInternalError) (Some e)))
| FetchStatus (resp : Response) :
    net h (Get link) = HttpOk resp ->
    statusOK (StatusCode resp) = false ->
    Fetched h link (None, false, Some (newError (Some ErrServerIsUnavailable) None))
| FetchUnread (resp : Response) (e : RawErr) :
    net h (Get link) = HttpOk resp ->
    statusOK (StatusCode resp) = true ->
    Body resp = ReadFailed e ->
    Fetched h link (None, false, Some (newError (Some ErrInternalError) (Some e)))
| FetchRead (resp : Response) (file : string) :
    net h (Get link) = HttpOk resp ->
    statusOK (StatusCode resp) = true ->
    Body resp = ReadOk file ->
    Fetched h link (Some file, StatusCode resp =? 400, None).

Variable m : manager.
Variable desc : string.
Variable format : DiagramFormat.
Variable h : list Call.

(** Steps 2 to 4 of [Render], once the identifier [imgID] is known: the
    result and the calls added after the submission. *)
Inductive ProbePath (part imgID : string) : RenderResult -> list Call -> Prop :=
| ProbeError (file : option string) (flag : bool) (e : Error) :
    Fetched (h ++ [PostForm (serverAddr m ++ "/form") (strings.Trim desc " ")])%list
      (serverAddr m ++ "/txt/" ++ imgID) (file, flag, Some e) ->
    ProbePath part imgID (errorOnly e) [Get (serverAddr m ++ "/txt/" ++ imgID)]
| ProbeSyntax (body : string) :
    Fetched (h ++ [PostForm (serverAddr m ++ "/form") (strings.Trim desc " ")])%list
      (serverAddr m ++ "/txt/" ++ imgID) (Some body, true, None) ->
    strings.HasPrefix (firstLine body) marker = true ->
    ProbePath part imgID
      (mkRenderResult None (Some (parsedError body))
         (Some (newError (Some ErrInvalidDiagramDescription) None)))
      [Get (serverAddr m ++ "/txt/" ++ imgID)]
| ProbeTxt (body : string) (flag : bool) :
    Fetched (h ++ [PostForm (serverAddr m ++ "/form") (strings.Trim desc " ")])%list
      (serverAddr m ++ "/txt/" ++ imgID) (Some body, flag, None) ->
    flag && strings.HasPrefix (firstLine body) marker = false ->
    format = DiagramFormatTXT ->
    ProbePath part imgID (mkRenderResult (Some body) None None)
      [Get (serverAddr m ++ "/txt/" ++ imgID)]
| ProbeFinalError (body : string) (flag : bool)
                  (file : option string) (flag3 : bool) (e : Error) :
    Fetched (h ++ [PostForm (serverAddr m ++ "/form") (strings.Trim desc " ")])%list
      (serverAddr m ++ "/txt/" ++ imgID) (Some body, flag, None) ->
    flag && strings.HasPrefix (firstLine body) marker = false ->
    format <> DiagramFormatTXT ->
    Fetched (h ++ [PostForm (serverAddr m ++ "/form") (strings.Trim desc " ");
                   Get (serverAddr m ++ "/txt/" ++ imgID)])%list
      (serverAddr m ++ "/" ++ part ++ "/" ++ imgID) (file, flag3, Some e) ->
    ProbePath part imgID (errorOnly e)
      [Get (serverAddr m ++ "/txt/" ++ imgID);
       Get (serverAddr m ++ "/" ++ part ++ "/" ++ imgID)]
| ProbeFinal (body : string) (flag : bool) (image : string) (flag3 : bool) :
    Fetched (h ++ [PostForm (serverAddr m ++ "/form") (strings.Trim desc " ")])%list
      (serverAddr m ++ "/txt/" ++ imgID) (Some body, flag, None) ->
    flag && strings.HasPrefix (firstLine body) marker = false ->
    format <> DiagramFormatTXT ->
    Fetched (h ++ [PostForm (serverAddr m ++ "/form") (strings.Trim desc " ");
                   Get (serverAddr m ++ "/txt/" ++ imgID)])%list
      (serverAddr m ++ "/" ++ part ++ "/" ++ imgID) (Some image, flag3, None) ->
    ProbePath part imgID (mkRenderResult (Some image) None None)
      [Get (serverAddr m ++ "/txt/" ++ imgID);
       Get (serverAddr m ++ "/" ++ part ++ "/" ++ imgID)].

(** The result of [Render] and the calls it adds to [h], path by path. *)
Inductive RenderPath : RenderResult -> list Call -> Prop :=
| PathBlank :
    strings.Trim desc " " = "" ->
    RenderPath (failure ErrInvalidDiagramDescription) []
| PathFormat :
    strings.Trim desc " " <> "" ->
    formatURLPart format = None ->
    RenderPath (failure ErrInvalidDiagramFormat) []
| PathPostFailed (part : string) (e : RawErr) :
    strings.Trim desc " " <> "" ->
    formatURLPart format = Some part ->
    net h (PostForm (serverAddr m ++ "/form") (strings.Trim desc " ")) = HttpFailed e ->
    RenderPath (errorOnly (newError (Some ErrInternalError) (Some e)))
      [PostForm (serverAddr m ++ "/form") (strings.Trim desc " ")]
| PathPostStatus (part : string) (posted : Response) :
    strings.Trim desc " " <> "" ->
    formatURLPart format = Some part ->
    net h (PostForm (serverAddr m ++ "/form") (strings.Trim desc " ")) = HttpOk posted ->
    statusOK (StatusCode posted) = false ->
    RenderPath (failure ErrServerIsUnavailable)
      [PostForm (serverAddr m ++ "/form") (strings.Trim desc " ")]
| PathProbed (part : string) (posted : Response)
             (r : RenderResult) (calls : list Call) :
    strings.Trim desc " " <> "" ->
    formatURLPart format = Some part ->
    net h (PostForm (serverAddr m ++ "/form") (strings.Trim desc " ")) = HttpOk posted ->
    statusOK (StatusCode posted) = true ->
    ProbePath part (lastSegment (RequestURL posted)) r calls ->
    RenderPath r
      (PostForm (serverAddr m ++ "/form") (strings.Trim desc " ") :: calls).

End Paths.

(** *** More renderers used as concrete inputs *)

(** A renderer whose plaintext probe answers with status 500. *)
Definition probe500 : Network :=
  fun _ c =>
    match c with
    | PostForm _ _ => HttpOk (mkResponse 200 "http://renderer/png/ID" (ReadOk ""))
    | Get link => HttpOk (mkResponse 500 link (ReadOk "Internal Server Error"))
    end.

(** Decimal digits as text. *)
Fixpoint allDigits (s : string) : bool :=
  match s with
  | EmptyString => true
  | String c rest =>
      match strconv.digit c with
      | Some _ => allDigits rest
      | None => false
      end
  end.

Fixpoint noByte (c : ascii) (s : string) : bool :=
  match s with
  | EmptyString => true
  | String d rest => negb (Ascii.eqb c d) && noByte c rest
  end.

(** A reply of the handler as the UI expects it: the file with status 200,
    or status 500 and an envelope with [ok] false, code 2 or 4 without
    data, or code 3 with data. *)
Definition wellFormedReply (reply : api.Reply) : Prop :=
  match api.body reply with
  | api.Bytes _ => api.status reply = 200
  | api.Envelope ok code data =>
      api.status reply = 500 /\ ok = false
      /\ match data with
         | None => code = 2 \/ code = 4
         | Some _ => code = 3
         end
  end.

(** [strings.Join], the inverse the statements about [Split] refer to. *)
Fixpoint Join (pieces : list string) (sep : string) : string :=
  match pieces with
  | [] => ""
  | [piece] => piece
  | piece :: more => piece ++ sep ++ Join more sep
  end.

(** All bytes of [s] belong to [cutset]. *)
Fixpoint allIn (s cutset : string) : bool :=
  match s with
  | EmptyString => true
  | String c rest => strings.inCutset c cutset && allIn rest cutset
  end.

(** No byte of [s] belongs to [cutset]. *)
Fixpoint noneIn (s cutset : string) : bool :=
  match s with
  | EmptyString => true
  | String c rest => negb (strings.inCutset c cutset) && noneIn rest cutset
  end.

(** The first byte of [s], if any, is outside [cutset]. *)
Definition startsOutside (s cutset : string) : bool :=
  match s with
  | EmptyString => true
  | String c _ => negb (strings.inCutset c cutset)
  end.

(** The decimal value of a run of digits read from the left. *)
Definition decimalValue (ds : string) : Z :=
  fold_left (fun acc c => acc * 10 + (Z.of_nat (nat_of_ascii c) - 48))
    (list_ascii_of_string ds) 0.

Definition bodyUnknown : string :=
  "[From string (line 2) ]" ++ LF ++ " Syntax error: Unknown keyword".

(** A first line whose digits exceed the range of [int]. *)
Definition bodyHuge : string :=
  "[From string (line 99999999999999999999) ]" ++ LF ++ " Syntax error: ?".

(** A renderer whose probe answers 200 with a body that breaks off. *)
Definition brokenProbe : Network :=
  fun _ c =>
    match c with
    | PostForm _ _ => HttpOk (mkResponse 200 "http://renderer/png/ID" (ReadOk ""))
    | Get link =>
        HttpOk (mkResponse 200 link (ReadFailed (BodyReadError "unexpected EOF")))
    end.

(** The scheme [net/url] reads at the head of an address: a letter, then
    letters, digits, [+], [-] or [.], up to a colon.  It is empty when
    [getScheme] finds none or fails. *)
Definition schemeOf (addr : string) : string :=
  match url.getScheme addr with
  | inr (scheme, _) => scheme
  | inl _ => ""
  end.

(** * Properties *)

(** ** Slices and lines *)

Lemma genSplit_nonempty (s sep : string) (skip : nat) :
  strings.genSplit s sep skip <> [].
Proof.
  revert skip; induction s as [|c rest IH]; intros skip; cbn [strings.genSplit].
  - discriminate.
  - destruct skip as [|k]; [|apply IH].
    destruct (String.prefix _ _); [discriminate|].
    destruct (strings.genSplit rest sep 0); discriminate.
Qed.

Lemma Split_nonempty (s sep : string) :
  sep <> "" -> strings.Split s sep <> [].
Proof.
  intros Hsep; unfold strings.Split.
  destruct sep; [contradiction|apply genSplit_nonempty].
Qed.

Lemma index_first {A : Type} (xs : list A) (d : A) :
  xs <> [] -> index xs 0 = Ret (hd d xs).
Proof.
  destruct xs as [|x xs]; [contradiction|reflexivity].
Qed.

Lemma nth_error_last {A : Type} (xs : list A) (d : A) :
  xs <> [] -> nth_error xs (List.length xs - 1) = Some (last xs d).
Proof.
  induction xs as [|x xs IH]; [contradiction|intros _].
  destruct xs as [|y ys]; [reflexivity|].
  assert (Hne : y :: ys <> []) by discriminate.
  specialize (IH Hne).
  replace (List.length (x :: y :: ys) - 1)%nat
    with (S (List.length (y :: ys) - 1)) by (simpl; lia).
  exact IH.
Qed.

Lemma index_last {A : Type} (xs : list A) (d : A) :
  xs <> [] -> index xs (len xs - 1) = Ret (last xs d).
Proof.
  intros Hne; unfold index, len.
  assert (0 < List.length xs)%nat by (destruct xs; [contradiction|simpl; lia]).
  destruct (Z.of_nat (List.length xs) - 1 <? 0) eqn:E; [apply Z.ltb_lt in E; lia|].
  replace (Z.to_nat (Z.of_nat (List.length xs) - 1)) with (List.length xs - 1)%nat by lia.
  now rewrite (nth_error_last xs d Hne).
Qed.

Lemma LF_nonempty : LF <> "".
Proof. discriminate. Qed.

(** [getErrorLineNumber] in closed form: it never panics, and what it
    returns is decided by the first and the last line. *)
Lemma getErrorLineNumber_eq (body : string) :
  getErrorLineNumber body =
  Ret (if strings.HasPrefix (firstLine body) marker
       then Some (parsedError body)
       else None).
Proof.
  unfold getErrorLineNumber, parsedError, firstLine, lastLine.
  pose proof (Split_nonempty body LF LF_nonempty) as Hne.
  rewrite (index_first _ "" Hne), (index_last _ "" Hne).
  destruct (strings.HasPrefix _ marker); simpl; [|reflexivity].
  destruct (strconv.Atoi _); reflexivity.
Qed.

Lemma length_zero (s : string) :
  (Z.of_nat (String.length s) =? 0) = String.eqb s "".
Proof.
  destruct s; reflexivity.
Qed.

Lemma length_nonzero (s : string) :
  s <> "" -> (Z.of_nat (String.length s) =? 0) = false.
Proof.
  intros H; rewrite length_zero; now apply String.eqb_neq.
Qed.

(** ** The two helpers of [Render] *)

Section Helpers.

Variable net : Network.

Lemma getDiagramID_failed (link text : string) (h : list Call) (e : RawErr) :
  net h (PostForm link text) = HttpFailed e ->
  getDiagramID net link text h =
  (Ret ("", Some (newError (Some ErrInternalError) (Some e))),
   (h ++ [PostForm link text])%list).
Proof.
  intros H; unfold getDiagramID, bind, call, ret; now rewrite H.
Qed.

Lemma getDiagramID_status (link text : string) (h : list Call) (resp : Response) :
  net h (PostForm link text) = HttpOk resp ->
  statusOK (StatusCode resp) = false ->
  getDiagramID net link text h =
  (Ret ("", Some (newError (Some ErrServerIsUnavailable) None)),
   (h ++ [PostForm link text])%list).
Proof.
  intros H Hs; unfold getDiagramID, bind, call, ret; now rewrite H, Hs.
Qed.

Lemma getDiagramID_ok (link text : string) (h : list Call) (resp : Response) :
  net h (PostForm link text) = HttpOk resp ->
  statusOK (StatusCode resp) = true ->
  getDiagramID net link text h =
  (Ret (lastSegment (RequestURL resp), None), (h ++ [PostForm link text])%list).
Proof.
  intros H Hs; unfold getDiagramID, bind, call, ret, lift, lastSegment.
  rewrite H, Hs; cbn [negb].
  rewrite (index_last _ "") by (apply Split_nonempty; discriminate).
  reflexivity.
Qed.

Lemma downloadDiagram_failed (link : string) (h : list Call) (e : RawErr) :
  net h (Get link) = HttpFailed e ->
  downloadDiagram net link h =
  (Ret (None, false, Some (newError (Some ErrInternalError) (Some e))),
   (h ++ [Get link])%list).
Proof.
  intros H; unfold downloadDiagram, bind, call, ret; now rewrite H.
Qed.

Lemma downloadDiagram_status (link : string) (h : list Call) (resp : Response) :
  net h (Get link) = HttpOk resp ->
  statusOK (StatusCode resp) = false ->
  downloadDiagram net link h =
  (Ret (None, false, Some (newError (Some ErrServerIsUnavailable) None)),
   (h ++ [Get link])%list).
Proof.
  intros H Hs; unfold downloadDiagram, bind, call, ret; now rewrite H, Hs.
Qed.

Lemma downloadDiagram_unread (link : string) (h : list Call) (resp : Response)
      (e : RawErr) :
  net h (Get link) = HttpOk resp ->
  statusOK (StatusCode resp) = true ->
  Body resp = ReadFailed e ->
  downloadDiagram net link h =
  (Ret (None, false, Some (newError (Some ErrInternalError) (Some e))),
   (h ++ [Get link])%list).
Proof.
  intros H Hs Hb; unfold downloadDiagram, bind, call, ret; now rewrite H, Hs, Hb.
Qed.

Lemma downloadDiagram_ok (link : string) (h : list Call) (resp : Response)
      (file : string) :
  net h (Get link) = HttpOk resp ->
  statusOK (StatusCode resp) = true ->
  Body resp = ReadOk file ->
  downloadDiagram net link h =
  (Ret (Some file, StatusCode resp =? 400, None), (h ++ [Get link])%list).
Proof.
  intros H Hs Hb; unfold downloadDiagram, bind, call, ret.
  rewrite H, Hs, Hb; cbn [negb].
  now destruct (StatusCode resp =? 400).
Qed.

(** Whatever the renderer answers, a download is one call and no panic. *)
Lemma downloadDiagram_cases (link : string) (h : list Call) :
  exists file flag e,
    downloadDiagram net link h = (Ret (file, flag, e), (h ++ [Get link])%list)
    /\ match e with
       | Some e =>
           file = None /\ flag = false
           /\ forall raw, net h (Get link) = HttpFailed raw ->
                          e = newError (Some ErrInternalError) (Some raw)
       | None =>
           exists resp b,
             net h (Get link) = HttpOk resp /\ statusOK (StatusCode resp) = true
             /\ Body resp = ReadOk b /\ file = Some b
             /\ flag = (StatusCode resp =? 400)
       end.
Proof.
  destruct (net h (Get link)) as [resp|raw] eqn:Hn.
  - destruct (statusOK (StatusCode resp)) eqn:Hs.
    + destruct (Body resp) as [b|raw] eqn:Hb.
      * exists (Some b), (StatusCode resp =? 400), None.
        split; [now apply downloadDiagram_ok|].
        now exists resp, b.
      * exists None, false, (Some (newError (Some ErrInternalError) (Some raw))).
        split; [now apply (downloadDiagram_unread _ _ resp)|].
        repeat split. discriminate.
    + exists None, false, (Some (newError (Some ErrServerIsUnavailable) None)).
      split; [now apply (downloadDiagram_status _ _ resp)|].
      repeat split. discriminate.
  - exists None, false, (Some (newError (Some ErrInternalError) (Some raw))).
    split; [now apply downloadDiagram_failed|].
    repeat split. now intros raw' [= ->].
Qed.

End Helpers.

(** ** [Render] *)

Lemma bind_Ret {A B : Type} (c : M A) (k : A -> M B) (h h' : list Call) (a : A) :
  c h = (Ret a, h') -> bind c k h = k a h'.
Proof.
  intros H; unfold bind; now rewrite H.
Qed.

Section RenderFacts.

Variable net : Network.
Variable m : manager.

Lemma Render_empty_description (desc : string) (format : DiagramFormat)
      (h : list Call) :
  strings.Trim desc " " = "" ->
  Render net m desc format h = (Ret (failure ErrInvalidDiagramDescription), h).
Proof.
  intros H; unfold Render; rewrite H; reflexivity.
Qed.

Section Valid.

Variable desc : string.
Variable format : DiagramFormat.
Variable part : string.
Variable h : list Call.

Let text := strings.Trim desc " ".
Let post := PostForm (serverAddr m ++ "/form") text.

Hypothesis Htext : text <> "".
Hypothesis Hpart : formatURLPart format = Some part.

Lemma Render_post_failed (e : RawErr) :
  net h post = HttpFailed e ->
  Render net m desc format h =
  (Ret (errorOnly (newError (Some ErrInternalError) (Some e))), (h ++ [post])%list).
Proof.
  intros Hpost. unfold Render. fold text.
  rewrite (length_nonzero _ Htext), Hpart; cbv beta iota.
  now rewrite (bind_Ret _ _ _ _ _ (getDiagramID_failed net _ _ _ _ Hpost)).
Qed.

Lemma Render_post_status (posted : Response) :
  net h post = HttpOk posted ->
  statusOK (StatusCode posted) = false ->
  Render net m desc format h =
  (Ret (failure ErrServerIsUnavailable), (h ++ [post])%list).
Proof.
  intros Hpost Hs. unfold Render. fold text.
  rewrite (length_nonzero _ Htext), Hpart; cbv beta iota.
  now rewrite (bind_Ret _ _ _ _ _ (getDiagramID_status net _ _ _ _ Hpost Hs)).
Qed.

Section Posted.

Variable posted : Response.
Hypothesis Hpost : net h post = HttpOk posted.
Hypothesis Hposted : statusOK (StatusCode posted) = true.

Let imgID := lastSegment (RequestURL posted).
Let get := Get (serverAddr m ++ "/txt/" ++ imgID).

Lemma Render_probe_error (file : option string) (flag : bool) (e : Error)
      (h2 : list Call) :
  downloadDiagram net (serverAddr m ++ "/txt/" ++ imgID) (h ++ [post])%list
  = (Ret (file, flag, Some e), h2) ->
  Render net m desc format h = (Ret (errorOnly e), h2).
Proof.
  intros Hprobe. unfold Render. fold text.
  rewrite (length_nonzero _ Htext), Hpart; cbv beta iota.
  rewrite (bind_Ret _ _ _ _ _ (getDiagramID_ok net _ _ _ _ Hpost Hposted)).
  now rewrite (bind_Ret _ _ _ _ _ Hprobe).
Qed.

Lemma Render_after_probe (probe : Response) (body : string) :
  net (h ++ [post])%list get = HttpOk probe ->
  statusOK (StatusCode probe) = true ->
  Body probe = ReadOk body ->
  Render net m desc format h =
  if (StatusCode probe =? 400) && strings.HasPrefix (firstLine body) marker
  then (Ret (mkRenderResult None (Some (parsedError body))
               (Some (newError (Some ErrInvalidDiagramDescription) None))),
        (h ++ [post; get])%list)
  else if format =? DiagramFormatTXT
  then (Ret (mkRenderResult (Some body) None None), (h ++ [post; get])%list)
  else lastStep net (serverAddr m ++ "/" ++ part ++ "/" ++ imgID)
         (h ++ [post; get])%list.
Proof.
  intros Hget Hs Hbody. unfold Render. fold text.
  rewrite (length_nonzero _ Htext), Hpart; cbv beta iota.
  rewrite (bind_Ret _ _ _ _ _ (getDiagramID_ok net _ _ _ _ Hpost Hposted)).
  rewrite (bind_Ret _ _ _ _ _ (downloadDiagram_ok net _ _ _ _ Hget Hs Hbody)).
  rewrite <- app_assoc; cbn [app]. fold imgID post get.
  unfold bind at 1.
  destruct (StatusCode probe =? 400); cbn [andb].
  - unfold lift. rewrite getErrorLineNumber_eq.
    destruct (strings.HasPrefix (firstLine body) marker); [reflexivity|].
    destruct (format =? DiagramFormatTXT); reflexivity.
  - unfold ret at 1.
    destruct (format =? DiagramFormatTXT); reflexivity.
Qed.

End Posted.

End Valid.

End RenderFacts.

Lemma Render_invalid_format (net : Network) (m : manager) (desc : string)
      (format : DiagramFormat) (h : list Call) :
  strings.Trim desc " " <> "" ->
  formatURLPart format = None ->
  Render net m desc format h = (Ret (failure ErrInvalidDiagramFormat), h).
Proof.
  intros Htext Hpart; unfold Render.
  now rewrite (length_nonzero _ Htext), Hpart.
Qed.

(** ** Trimming *)

Lemma inCutset_space (c : ascii) : strings.inCutset c " " = Ascii.eqb c " ".
Proof.
  simpl; apply orb_false_r.
Qed.

Lemma TrimLeft_allSpaces (s : string) :
  allSpaces s = true -> strings.TrimLeft s " " = "".
Proof.
  induction s as [|c rest IH]; simpl; [reflexivity|].
  intros H; apply andb_prop in H as [Hc Hrest].
  rewrite orb_false_r, Hc. now apply IH.
Qed.

Lemma TrimRight_empty (s : string) :
  strings.TrimRight s " " = "" -> allSpaces s = true.
Proof.
  induction s as [|c rest IH]; [reflexivity|].
  cbn [strings.TrimRight allSpaces].
  destruct (strings.TrimRight rest " ") eqn:E; [|discriminate].
  rewrite inCutset_space.
  destruct (Ascii.eqb c " "); [intros _; now apply IH|discriminate].
Qed.

Lemma TrimLeft_spaces_back (s : string) :
  allSpaces (strings.TrimLeft s " ") = true -> allSpaces s = true.
Proof.
  induction s as [|c rest IH]; [reflexivity|].
  cbn [strings.TrimLeft]. rewrite inCutset_space.
  destruct (Ascii.eqb c " ") eqn:E.
  - intros H. cbn [allSpaces]. rewrite E. now apply IH.
  - trivial.
Qed.

(** [Render]'s trim leaves nothing exactly for the strings of spaces. *)
Lemma Trim_empty_iff (s : string) :
  strings.Trim s " " = "" <-> allSpaces s = true.
Proof.
  unfold strings.Trim; split.
  - intros H. apply TrimLeft_spaces_back. now apply TrimRight_empty.
  - intros H. now rewrite (TrimLeft_allSpaces _ H).
Qed.

(** ** The error-text parser *)

(** C10. [getErrorLineNumber] is total: splitting a body on line feeds
    yields at least one line, so taking the first and the last line stays
    within bounds, the function returns without a panic, and it returns nil
    exactly when the first line does not begin with the marker. *)
Theorem getErrorLineNumber_total (body : string) :
  1 <= len (strings.Split body LF)
  /\ index (strings.Split body LF) 0 = Ret (firstLine body)
  /\ index (strings.Split body LF) (len (strings.Split body LF) - 1)
     = Ret (lastLine body)
  /\ exists r : option SyntaxError,
       getErrorLineNumber body = Ret r
       /\ (r = None <-> strings.HasPrefix (firstLine body) marker = false).
Proof.
  pose proof (Split_nonempty body LF LF_nonempty) as Hne.
  repeat split.
  - unfold len. destruct (strings.Split body LF); [contradiction|simpl; lia].
  - now apply index_first.
  - now apply index_last.
  - rewrite getErrorLineNumber_eq.
    eexists; split; [reflexivity|].
    destruct (strings.HasPrefix (firstLine body) marker); split;
      intros; congruence.
Qed.

(** When the text [getErrorLineNumber] hands to [Atoi] is rejected, the
    line number is 0 and the two other fields are filled all the same. *)
Lemma getErrorLineNumber_unparsed (body : string) :
  strings.HasPrefix (firstLine body) marker = true ->
  strconv.Atoi (strings.TrimRight (strings.TrimLeft (firstLine body) marker)
                  trailerCutset) = None ->
  getErrorLineNumber body =
  Ret (Some {| SyntaxRawError := body;
               LineNumber := 0;
               LineWithError := strings.TrimLeft (lastLine body) lastLineCutset |}).
Proof.
  intros Hm Ha. rewrite getErrorLineNumber_eq, Hm.
  unfold parsedError. now rewrite Ha.
Qed.

(** C8. A first line that begins with the marker and whose text between the
    marker and the trailer, [e5], is no integer: [getErrorLineNumber]
    reports line 5, not 0.  Trimming with the marker as a cutset also
    removes the letter that follows it. *)
Theorem line_number_of_non_integer_text :
  strings.HasPrefix (firstLine lineE5) marker = true
  /\ spec_lineNumberText (firstLine lineE5) = "e5"
  /\ strconv.Atoi "e5" = None
  /\ getErrorLineNumber lineE5 =
     Ret (Some {| SyntaxRawError := lineE5;
                  LineNumber := 5;
                  LineWithError := lineE5 |}).
Proof.
  repeat split; vm_compute; reflexivity.
Qed.

(** Every body with the two lines of the example yields line 5, the whole
    body as raw error, and a last line that has lost more than its
    [ Syntax error: ] prefix. *)
Lemma getErrorLineNumber_line5 (body : string) :
  firstLine body = "[From string (line 5) ]" ->
  lastLine body = " Syntax error: expected '@enduml'" ->
  getErrorLineNumber body =
  Ret (Some {| SyntaxRawError := body;
               LineNumber := 5;
               LineWithError := "pected '@enduml'" |}).
Proof.
  intros Hf Hl. rewrite getErrorLineNumber_eq.
  unfold parsedError. rewrite Hf, Hl. reflexivity.
Qed.

(** C1. The renderer answers the plaintext probe with status 400 and a body
    whose first line is [[From string (line 5) ]] and whose last line is
    [ Syntax error: expected '@enduml']: [Render] returns the syntax error
    with line 5 and the full body, but with the offending text
    [pected '@enduml'], and the handler sends code 3 with those values. *)
Theorem syntax_error_of_line5_body :
  firstLine body5 = "[From string (line 5) ]"
  /\ lastLine body5 = " Syntax error: expected '@enduml'"
  /\ Render (renderer400 body5 "PNG") client0 "Bob -> Alice" DiagramFormatPNG []
     = (Ret (mkRenderResult None
               (Some {| SyntaxRawError := body5;
                        LineNumber := 5;
                        LineWithError := "pected '@enduml'" |})
               (Some (newError (Some ErrInvalidDiagramDescription) None))),
        calls5)
  /\ api.handlerRenderDiagram (renderer400 body5 "PNG") client0 (Some request5) []
     = (Ret (api.mkReply 500
               (api.Envelope false 3
                  (Some (api.mkErrorData 5 "pected '@enduml'" body5)))),
        calls5).
Proof.
  repeat split; vm_compute; reflexivity.
Qed.

(** ** Validation of the description *)

(** C9. The description is validated before the format: a description
    that trims to nothing is answered with the invalid-description error
    whatever the format value is, recognised or not, and no call is made. *)
Theorem description_checked_before_format
        (net : Network) (m : manager) (desc : string) (format : DiagramFormat)
        (h : list Call) :
  strings.Trim desc " " = "" ->
  Render net m desc format h = (Ret (failure ErrInvalidDiagramDescription), h)
  /\ outcome (failure ErrInvalidDiagramDescription)
     = OperationalFailure ErrInvalidDiagramDescription
  /\ outcome (failure ErrInvalidDiagramDescription)
     <> OperationalFailure ErrInvalidDiagramFormat.
Proof.
  intros H; split; [now apply Render_empty_description|].
  split; [reflexivity|discriminate].
Qed.

Lemma description_checked_before_format_witness :
  strings.Trim "   " " " = ""
  /\ formatURLPart 7 = None
  /\ Render unreachable client0 "   " 7 []
     = (Ret (failure ErrInvalidDiagramDescription), []).
Proof.
  split; [reflexivity|]. split; [reflexivity|].
  apply (description_checked_before_format unreachable client0 "   " 7 []).
  reflexivity.
Defined.

(** C4, as stated, fails: a description made of a tab is white space only,
    yet [Render] submits it to the renderer. *)
Lemma tab_description_is_submitted :
  allWhitespace TAB = true
  /\ Render unreachable client0 TAB DiagramFormatTXT []
     = (Ret (errorOnly (newError (Some ErrInternalError)
                          (Some (TransportError "connection refused")))),
        [PostForm "http://renderer/form" TAB])
  /\ Render unreachable client0 TAB DiagramFormatTXT []
     <> (Ret (failure ErrInvalidDiagramDescription), []).
Proof.
  split; [reflexivity|]. split; [reflexivity|]. discriminate.
Qed.

(** C4, amended. A description that is empty or consists of space
    characters only is answered with the invalid-description error, and the
    call history is left as it was: no network call is made. *)
Theorem spaces_only_description_rejected
        (net : Network) (m : manager) (desc : string) (format : DiagramFormat)
        (h : list Call) :
  allSpaces desc = true ->
  Render net m desc format h = (Ret (failure ErrInvalidDiagramDescription), h)
  /\ outcome (failure ErrInvalidDiagramDescription)
     = OperationalFailure ErrInvalidDiagramDescription.
Proof.
  intros H; split; [|reflexivity].
  apply Render_empty_description. now apply Trim_empty_iff.
Qed.

Lemma spaces_only_description_rejected_witness :
  allSpaces "  " = true
  /\ Render unreachable client0 "  " DiagramFormatSVG []
     = (Ret (failure ErrInvalidDiagramDescription), []).
Proof.
  split; [reflexivity|].
  apply (spaces_only_description_rejected unreachable client0 "  " DiagramFormatSVG []).
  reflexivity.
Defined.

(** ** Step 4 for the TXT format *)

(** C7. A TXT call that reaches step 4 (the submission and the probe were
    answered with status 200 or 400, the probe body was read, and step 3
    found no syntax error) makes two calls, the submission and the probe,
    and returns the probe body unchanged as the artifact. *)
Theorem txt_returns_probe_body
        (net : Network) (m : manager) (desc : string) (h : list Call)
        (posted probe : Response) (body : string) :
  let text := strings.Trim desc " " in
  let post := PostForm (serverAddr m ++ "/form") text in
  let get := Get (serverAddr m ++ "/txt/" ++ lastSegment (RequestURL posted)) in
  text <> "" ->
  net h post = HttpOk posted ->
  statusOK (StatusCode posted) = true ->
  net (h ++ [post])%list get = HttpOk probe ->
  statusOK (StatusCode probe) = true ->
  Body probe = ReadOk body ->
  (StatusCode probe = 400 -> strings.HasPrefix (firstLine body) marker = false) ->
  Render net m desc DiagramFormatTXT h
  = (Ret (mkRenderResult (Some body) None None), (h ++ [post; get])%list)
  /\ outcome (mkRenderResult (Some body) None None) = Success body.
Proof.
  intros text post get Htext Hpost Hs1 Hget Hs2 Hbody Hmark.
  split; [|reflexivity].
  rewrite (Render_after_probe net m desc DiagramFormatTXT "txt" h Htext
             eq_refl posted Hpost Hs1 probe body Hget Hs2 Hbody).
  destruct (StatusCode probe =? 400) eqn:E; cbn [andb]; [|reflexivity].
  apply Z.eqb_eq in E. now rewrite (Hmark E).
Qed.

Lemma txt_returns_probe_body_witness :
  Render (renderer200 "Bob->Alice") client0 " Bob -> Alice " DiagramFormatTXT []
  = (Ret (mkRenderResult (Some "Bob->Alice") None None), calls5)
  /\ outcome (mkRenderResult (Some "Bob->Alice") None None) = Success "Bob->Alice".
Proof.
  apply (txt_returns_probe_body (renderer200 "Bob->Alice") client0 " Bob -> Alice " []
           (mkResponse 200 "http://renderer/png/ID" (ReadOk ""))
           (mkResponse 200 "http://renderer/txt/ID" (ReadOk "Bob->Alice"))
           "Bob->Alice");
    try reflexivity; discriminate.
Defined.

(** ** A probe answered 400 without the marker *)

(** C2, as stated, fails: the probe is answered 400 with a body whose first
    line lacks the marker, and [Render] returns that body as a success. *)
Lemma unmarked_400_is_a_success :
  strings.HasPrefix (firstLine "oops") marker = false
  /\ Render (renderer400 "oops" "PNG") client0 "Bob -> Alice" DiagramFormatTXT []
     = (Ret (mkRenderResult (Some "oops") None None), calls5)
  /\ outcome (mkRenderResult (Some "oops") None None) = Success "oops".
Proof.
  split; [reflexivity|]. split; reflexivity.
Qed.

(** C2, amended. When the probe is answered 400 and the first line of its
    body lacks the marker, [Render] reports no syntax error and goes on to
    step 4: for TXT it returns the probe body as the artifact after two
    calls; for another format it returns what the format-specific fetch
    yields, whose result never carries a syntax error. *)
Theorem unmarked_400_falls_through
        (net : Network) (m : manager) (desc : string) (format : DiagramFormat)
        (part : string) (h : list Call) (posted probe : Response) (body : string) :
  let text := strings.Trim desc " " in
  let imgID := lastSegment (RequestURL posted) in
  let post := PostForm (serverAddr m ++ "/form") text in
  let get := Get (serverAddr m ++ "/txt/" ++ imgID) in
  text <> "" ->
  formatURLPart format = Some part ->
  net h post = HttpOk posted ->
  statusOK (StatusCode posted) = true ->
  net (h ++ [post])%list get = HttpOk probe ->
  StatusCode probe = 400 ->
  Body probe = ReadOk body ->
  strings.HasPrefix (firstLine body) marker = false ->
  Render net m desc format h
  = (if format =? DiagramFormatTXT
     then (Ret (mkRenderResult (Some body) None None), (h ++ [post; get])%list)
     else lastStep net (serverAddr m ++ "/" ++ part ++ "/" ++ imgID)
            (h ++ [post; get])%list)
  /\ exists r : RenderResult,
       fst (Render net m desc format h) = Ret r /\ syntaxError r = None.
Proof.
  intros text imgID post get Htext Hpart Hpost Hs1 Hget H400 Hbody Hmark.
  assert (Hs2 : statusOK (StatusCode probe) = true) by (now rewrite H400).
  rewrite (Render_after_probe net m desc format part h Htext Hpart posted
             Hpost Hs1 probe body Hget Hs2 Hbody).
  rewrite Hmark, andb_false_r.
  split; [reflexivity|].
  destruct (format =? DiagramFormatTXT); [now eexists|].
  unfold lastStep.
  destruct (downloadDiagram_cases net
              (serverAddr m ++ "/" ++ part ++ "/" ++ lastSegment (RequestURL posted))
              (h ++ [PostForm (serverAddr m ++ "/form") (strings.Trim desc " ");
                     Get (serverAddr m ++ "/txt/" ++ lastSegment (RequestURL posted))])%list)
    as (file & flag & e & Hd & _).
  rewrite (bind_Ret _ _ _ _ _ Hd).
  destruct e; now eexists.
Qed.

Lemma unmarked_400_falls_through_witness :
  Render (renderer400 "oops" "PNG") client0 "Bob -> Alice" DiagramFormatPNG []
  = lastStep (renderer400 "oops" "PNG") "http://renderer/png/ID" calls5
  /\ exists r : RenderResult,
       fst (Render (renderer400 "oops" "PNG") client0 "Bob -> Alice"
              DiagramFormatPNG []) = Ret r
       /\ syntaxError r = None.
Proof.
  apply (unmarked_400_falls_through (renderer400 "oops" "PNG") client0
           "Bob -> Alice" DiagramFormatPNG "png" []
           (mkResponse 200 "http://renderer/png/ID" (ReadOk ""))
           (mkResponse 400 "http://renderer/txt/ID" (ReadOk "oops")) "oops");
    try reflexivity; discriminate.
Defined.

(** ** Failed calls *)

Lemma app_same_head {A : Type} (h xs ys : list A) :
  (h ++ xs = h ++ ys)%list -> xs = ys.
Proof.
  apply app_inv_head.
Qed.

Lemma no_call_located {A : Type} (h pre post : list A) (c : A) :
  h <> (h ++ pre ++ c :: post)%list.
Proof.
  intros H. rewrite <- (app_nil_r h) in H at 1.
  apply app_inv_head in H. destruct pre; discriminate.
Qed.

(** Where a call sits in a short history: [H] equates the calls made with
    [pre ++ c :: post]. *)
Ltac locate_in H :=
  lazymatch type of H with
  | [] = (?pre ++ _ :: _)%list => destruct pre; discriminate H
  | (_ :: _) = (?pre ++ _ :: _)%list =>
      destruct pre as [|? pre]; cbn [app] in H;
      [ injection H as; subst
      | let H1 := fresh in injection H as H1 H; subst; locate_in H ]
  end.

Ltac locate H := apply app_same_head in H; cbn [app] in H; locate_in H.

Lemma failed_not_ok (r : HttpResult) (resp : Response) (e : RawErr) :
  r = HttpOk resp -> r = HttpFailed e -> False.
Proof.
  congruence.
Qed.

Lemma failed_same (r : HttpResult) (e1 e2 : RawErr) :
  r = HttpFailed e1 -> r = HttpFailed e2 -> e1 = e2.
Proof.
  congruence.
Qed.

Lemma respond_internal_error (e : RawErr) (h : list Call) :
  api.respond (errorOnly (newError (Some ErrInternalError) (Some e))) h
  = (Ret (api.mkReply 500 (api.Envelope false 4 None)), h).
Proof.
  reflexivity.
Qed.

(** C5, as stated, fails: the renderer cannot be reached, and the failed
    submission is tagged as an internal error, not as an unavailable
    server. *)
Lemma refused_submission_is_internal_error :
  unreachable [] (PostForm "http://renderer/form" "Bob -> Alice")
  = HttpFailed (TransportError "connection refused")
  /\ fst (Render unreachable client0 "Bob -> Alice" DiagramFormatPNG [])
     = Ret (errorOnly (newError (Some ErrInternalError)
                         (Some (TransportError "connection refused"))))
  /\ outcome (errorOnly (newError (Some ErrInternalError)
                           (Some (TransportError "connection refused"))))
     = OperationalFailure ErrInternalError
  /\ OperationalFailure ErrInternalError <> OperationalFailure ErrServerIsUnavailable.
Proof.
  split; [reflexivity|]. split; [reflexivity|]. split; [reflexivity|discriminate].
Qed.

(** C5, amended. Whichever of its calls fails as a call (the request could
    not be built or could not be carried), [Render] stops there and returns
    the internal error with that failure as raw error: an operational
    failure, no syntax error, and the handler answers with code 4. *)
Theorem failed_call_is_internal_error
        (net : Network) (m : manager) (desc : string) (format : DiagramFormat)
        (h h' pre post : list Call) (r : Go RenderResult) (c : Call) (e : RawErr) :
  Render net m desc format h = (r, h') ->
  h' = (h ++ pre ++ c :: post)%list ->
  net (h ++ pre)%list c = HttpFailed e ->
  r = Ret (errorOnly (newError (Some ErrInternalError) (Some e)))
  /\ post = []
  /\ outcome (errorOnly (newError (Some ErrInternalError) (Some e)))
     = OperationalFailure ErrInternalError
  /\ forall name : string,
       api.formatOf name = Some format ->
       api.handlerRenderDiagram net m (Some (api.mkPrms desc name)) h
       = (Ret (api.mkReply 500 (api.Envelope false 4 None)), h').
Proof.
  intros HR Hh' Hfail.
  assert (Hhandler :
            r = Ret (errorOnly (newError (Some ErrInternalError) (Some e))) ->
            forall name : string,
              api.formatOf name = Some format ->
              api.handlerRenderDiagram net m (Some (api.mkPrms desc name)) h
              = (Ret (api.mkReply 500 (api.Envelope false 4 None)), h')).
  { intros -> name Hname. unfold api.handlerRenderDiagram.
    cbn [api.Format api.Data]. rewrite Hname.
    rewrite (bind_Ret _ _ _ _ _ HR). apply respond_internal_error. }
  enough (r = Ret (errorOnly (newError (Some ErrInternalError) (Some e)))
          /\ post = []) as [Hr Hp] by (repeat split; auto).
  clear Hhandler. subst h'.
  destruct (string_dec (strings.Trim desc " ") "") as [Hempty|Htext].
  { rewrite (Render_empty_description net m desc format h Hempty) in HR.
    injection HR as _ HR. now apply no_call_located in HR. }
  destruct (formatURLPart format) as [part|] eqn:Hpart.
  2:{ rewrite (Render_invalid_format net m desc format h Htext Hpart) in HR.
      injection HR as _ HR. now apply no_call_located in HR. }
  destruct (net h (PostForm (serverAddr m ++ "/form") (strings.Trim desc " ")))
    as [posted|e1] eqn:Hpost.
  2:{ rewrite (Render_post_failed net m desc format part h Htext Hpart e1 Hpost) in HR.
      injection HR as Hr HR. locate HR. rewrite app_nil_r in Hfail.
      now rewrite (failed_same _ _ _ Hpost Hfail). }
  destruct (statusOK (StatusCode posted)) eqn:Hs1.
  2:{ rewrite (Render_post_status net m desc format part h Htext Hpart posted Hpost Hs1) in HR.
      injection HR as Hr HR. locate HR. rewrite app_nil_r in Hfail.
      destruct (failed_not_ok _ _ _ Hpost Hfail). }
  destruct (downloadDiagram_cases net
              (serverAddr m ++ "/txt/" ++ lastSegment (RequestURL posted))
              (h ++ [PostForm (serverAddr m ++ "/form") (strings.Trim desc " ")])%list)
    as (file & flag & e2 & Hd & Hcase).
  destruct e2 as [e2|].
  { rewrite (Render_probe_error net m desc format part h Htext Hpart posted
               Hpost Hs1 file flag e2 _ Hd) in HR.
    injection HR as Hr HR. rewrite <- app_assoc in HR. locate HR.
    - rewrite app_nil_r in Hfail. destruct (failed_not_ok _ _ _ Hpost Hfail).
    - destruct Hcase as (_ & _ & Hcase). now rewrite (Hcase e Hfail). }
  destruct Hcase as (probe & body & Hget & Hs2 & Hbody & -> & ->).
  rewrite (Render_after_probe net m desc format part h Htext Hpart posted
             Hpost Hs1 probe body Hget Hs2 Hbody) in HR.
  destruct ((StatusCode probe =? 400)
            && strings.HasPrefix (firstLine body) marker).
  { injection HR as Hr HR. locate HR.
    - rewrite app_nil_r in Hfail. destruct (failed_not_ok _ _ _ Hpost Hfail).
    - destruct (failed_not_ok _ _ _ Hget Hfail). }
  destruct (format =? DiagramFormatTXT).
  { injection HR as Hr HR. locate HR.
    - rewrite app_nil_r in Hfail. destruct (failed_not_ok _ _ _ Hpost Hfail).
    - destruct (failed_not_ok _ _ _ Hget Hfail). }
  unfold lastStep in HR.
  destruct (downloadDiagram_cases net
              (serverAddr m ++ "/" ++ part ++ "/" ++ lastSegment (RequestURL posted))
              (h ++ [PostForm (serverAddr m ++ "/form") (strings.Trim desc " ");
                     Get (serverAddr m ++ "/txt/" ++ lastSegment (RequestURL posted))])%list)
    as (file3 & flag3 & e3 & Hd3 & Hcase3).
  rewrite (bind_Ret _ _ _ _ _ Hd3) in HR.
  destruct e3 as [e3|].
  - injection HR as Hr HR. rewrite <- app_assoc in HR. locate HR.
    + rewrite app_nil_r in Hfail. destruct (failed_not_ok _ _ _ Hpost Hfail).
    + destruct (failed_not_ok _ _ _ Hget Hfail).
    + destruct Hcase3 as (_ & _ & Hcase3). now rewrite (Hcase3 e Hfail).
  - destruct Hcase3 as (resp3 & b3 & Hget3 & _).
    injection HR as Hr HR. rewrite <- app_assoc in HR. locate HR.
    + rewrite app_nil_r in Hfail. destruct (failed_not_ok _ _ _ Hpost Hfail).
    + destruct (failed_not_ok _ _ _ Hget Hfail).
    + destruct (failed_not_ok _ _ _ Hget3 Hfail).
Qed.

Lemma failed_call_is_internal_error_witness :
  Ret (errorOnly (newError (Some ErrInternalError) (Some (TransportError "fetch refused"))))
  = Ret (errorOnly (newError (Some ErrInternalError) (Some (TransportError "fetch refused"))))
  /\ @nil Call = []
  /\ outcome (errorOnly (newError (Some ErrInternalError)
                           (Some (TransportError "fetch refused"))))
     = OperationalFailure ErrInternalError
  /\ forall name : string,
       api.formatOf name = Some DiagramFormatPNG ->
       api.handlerRenderDiagram fetchRefused client0
         (Some (api.mkPrms "Bob -> Alice" name)) []
       = (Ret (api.mkReply 500 (api.Envelope false 4 None)),
          calls5 ++ [Get "http://renderer/png/ID"])%list.
Proof.
  apply (failed_call_is_internal_error fetchRefused client0 "Bob -> Alice"
           DiagramFormatPNG [] (calls5 ++ [Get "http://renderer/png/ID"])%list
           calls5 []
           (Ret (errorOnly (newError (Some ErrInternalError)
                              (Some (TransportError "fetch refused")))))
           (Get "http://renderer/png/ID") (TransportError "fetch refused"));
    reflexivity.
Defined.

(** ** The request handler *)

(** What the handler sends once [Render] has returned: a panic exactly for
    an invalid-description error that comes without a syntax error. *)
Lemma respond_cases (r : RenderResult) (h : list Call) :
  match err r with
  | None =>
      api.respond r h
      = (Ret (api.mkReply 200
                (api.Bytes (match diagramFile r with Some b => b | None => "" end))), h)
  | Some e =>
      if api.isInvalidDescription e then
        match syntaxError r with
        | Some se =>
            api.respond r h
            = (Ret (api.mkReply 500
                      (api.Envelope false 3
                         (Some (api.mkErrorData (LineNumber se) (LineWithError se)
                                  (SyntaxRawError se))))), h)
        | None => api.respond r h = (Panic nil_dereference, h)
        end
      else api.respond r h = (Ret (api.mkReply 500 (api.Envelope false 4 None)), h)
  end.
Proof.
  unfold api.respond.
  destruct (err r) as [e|]; [|reflexivity].
  destruct (api.isInvalidDescription e); [|reflexivity].
  destruct (syntaxError r); reflexivity.
Qed.

(** C3. A request with an empty description and a known format: [Render]
    returns the invalid-description error without a syntax error, and the
    handler, reading the fields of the missing syntax error, panics: it
    sends neither code 3 nor code 4. *)
Theorem handler_panics_on_empty_description
        (net : Network) (m : manager) (h : list Call) :
  Render net m "" DiagramFormatTXT h = (Ret (failure ErrInvalidDiagramDescription), h)
  /\ syntaxError (failure ErrInvalidDiagramDescription) = None
  /\ api.handlerRenderDiagram net m (Some (api.mkPrms "" "txt")) h
     = (Panic nil_dereference, h).
Proof.
  split; [reflexivity|]. split; reflexivity.
Qed.

(** The same holds for every description that trims to nothing and for each
    of the three format names. *)
Lemma handler_panics_on_blank_description
      (net : Network) (m : manager) (h : list Call) (desc name : string)
      (format : DiagramFormat) :
  strings.Trim desc " " = "" ->
  api.formatOf name = Some format ->
  api.handlerRenderDiagram net m (Some (api.mkPrms desc name)) h
  = (Panic nil_dereference, h).
Proof.
  intros Hdesc Hname. unfold api.handlerRenderDiagram.
  cbn [api.Format api.Data]. rewrite Hname.
  now rewrite (bind_Ret _ _ _ _ _ (Render_empty_description net m desc format h Hdesc)).
Qed.

(** A request body that cannot be decoded is answered with code 2, and an
    unknown format name with code 4, without any call. *)
Lemma handler_rejections (net : Network) (m : manager) (h : list Call)
      (prms : api.prmsRenderDiagram) :
  api.handlerRenderDiagram net m None h
  = (Ret (api.mkReply 500 (api.Envelope false 2 None)), h)
  /\ (api.formatOf (api.Format prms) = None ->
      api.handlerRenderDiagram net m (Some prms) h
      = (Ret (api.mkReply 500 (api.Envelope false 4 None)), h)).
Proof.
  split; [reflexivity|].
  intros Hname. unfold api.handlerRenderDiagram. now rewrite Hname.
Qed.

(** ** Construction of the client *)

Lemma NewManager_cases (pa : string -> RawErr + string) (addr : string) :
  match url.ParseRequestURI pa addr with
  | inl raw =>
      NewManager pa addr
      = (None, Some (newError (Some ErrInvalidPlantUMLAddress) (Some raw)))
  | inr _ => NewManager pa addr = (Some (mkManager addr), None)
  end.
Proof.
  unfold NewManager. now destruct (url.ParseRequestURI pa addr).
Qed.

Lemma HasPrefix_slash (s : string) :
  strings.HasPrefix s "/" = match s with
                            | String c _ => Ascii.eqb "/" c
                            | EmptyString => false
                            end.
Proof.
  destruct s as [|c rest]; [reflexivity|].
  unfold strings.HasPrefix; cbn [String.prefix].
  destruct (ascii_dec "/" c) as [->|Hc].
  - rewrite Ascii.eqb_refl. now destruct rest.
  - apply Ascii.eqb_neq in Hc. now rewrite Hc.
Qed.

Lemma dropLast_unrooted (s : string) :
  strings.HasPrefix s "/" = false -> strings.HasPrefix (url.dropLast s) "/" = false.
Proof.
  rewrite !HasPrefix_slash.
  destruct s as [|c [|d rest]]; auto.
Qed.

Lemma Cut_unrooted (s : string) (sep : ascii) :
  strings.HasPrefix s "/" = false ->
  strings.HasPrefix (fst (url.Cut s sep)) "/" = false.
Proof.
  rewrite !HasPrefix_slash.
  destruct s as [|c rest]; [auto|].
  cbn [url.Cut]. destruct (Ascii.eqb c sep); [auto|].
  now destruct (url.Cut rest sep).
Qed.

(** C6, as stated, fails: an address without a scheme that is an absolute
    path is accepted, and a client is returned. *)
Lemma absolute_path_address_accepted :
  url.getScheme "/plantuml" = inr ("", "/plantuml")
  /\ NewManager noAuthority "/plantuml" = (Some (mkManager "/plantuml"), None).
Proof.
  split; reflexivity.
Qed.

Lemma getSchemeLoop_no_scheme (rawURL seen rest scheme tail : string) :
  url.getSchemeLoop rawURL seen rest = inr (scheme, tail) ->
  scheme = "" -> tail = rawURL.
Proof.
  revert seen; induction rest as [|c rest IH]; intros seen;
    cbn [url.getSchemeLoop].
  - now intros [= <- <-].
  - destruct (url.isLetter c); [apply IH|].
    destruct (url.isSchemeMark c).
    { destruct seen; [now intros [= <- <-]|apply IH]. }
    destruct (Ascii.eqb c ":").
    { destruct seen; [discriminate|]. intros [= <- <-]. discriminate. }
    now intros [= <- <-].
Qed.

(** C6, amended. An address in which [net/url] reads no scheme and that
    does not begin with a slash, the lone asterisk aside, is refused with
    the invalid-address error and no client is returned; the empty string
    is such an address, and so is one that begins with a colon. *)
Theorem NewManager_rejects_unrooted_address
        (pa : string -> RawErr + string) (addr : string) :
  schemeOf addr = "" ->
  strings.HasPrefix addr "/" = false ->
  addr <> "*" ->
  exists raw : RawErr,
    NewManager pa addr
    = (None, Some (newError (Some ErrInvalidPlantUMLAddress) (Some raw))).
Proof.
  intros Hscheme Hroot Hstar.
  pose proof (NewManager_cases pa addr) as HN.
  unfold url.ParseRequestURI in HN.
  destruct (url.stringContainsCTLByte addr); [eexists; exact HN|].
  destruct (String.eqb addr ""); [eexists; exact HN|].
  destruct (String.eqb_spec addr "*") as [->|_]; [contradiction|].
  unfold schemeOf in Hscheme.
  destruct (url.getScheme addr) as [e|[scheme tail]] eqn:Hget;
    [eexists; exact HN|].
  subst scheme.
  pose proof (getSchemeLoop_no_scheme _ _ _ _ _ Hget eq_refl) as ->.
  cbn [url.ToLower] in HN.
  destruct (url.HasSuffixByte addr "?" && (url.Count addr "?" =? 1)).
  - rewrite (dropLast_unrooted _ Hroot) in HN. eexists; exact HN.
  - pose proof (Cut_unrooted addr "?" Hroot) as Hcut.
    destruct (url.Cut addr "?") as [before after]. cbn [fst] in Hcut.
    rewrite Hcut in HN. eexists; exact HN.
Qed.

Lemma NewManager_rejects_unrooted_address_witness :
  schemeOf "localhost" = ""
  /\ exists raw : RawErr,
       NewManager noAuthority "localhost"
       = (None, Some (newError (Some ErrInvalidPlantUMLAddress) (Some raw))).
Proof.
  split; [reflexivity|].
  apply (NewManager_rejects_unrooted_address noAuthority "localhost");
    [reflexivity|reflexivity|discriminate].
Defined.

(** The empty string and an address that begins with a colon are refused
    in the same way; [localhost:8080] is read as the scheme [localhost]
    followed by [8080] and is accepted. *)
Example NewManager_empty :
  schemeOf "" = ""
  /\ fst (NewManager noAuthority "") = None
  /\ option_map PackageError (snd (NewManager noAuthority ""))
     = Some (Some ErrInvalidPlantUMLAddress).
Proof. repeat split. Qed.

Example NewManager_colon_first :
  schemeOf ":8080" = ""
  /\ fst (NewManager noAuthority ":8080") = None
  /\ option_map PackageError (snd (NewManager noAuthority ":8080"))
     = Some (Some ErrInvalidPlantUMLAddress).
Proof. repeat split. Qed.

Example NewManager_host_and_port :
  schemeOf "localhost:8080" = "localhost"
  /\ NewManager noAuthority "localhost:8080"
     = (Some (mkManager "localhost:8080"), None).
Proof. split; reflexivity. Qed.


(** * Further properties of the code *)

(** ** Every path through [Render] *)

Lemma downloadDiagram_Fetched (net : Network) (link : string) (h : list Call) :
  exists x,
    downloadDiagram net link h = (Ret x, (h ++ [Get link])%list)
    /\ Fetched net h link x.
Proof.
  destruct (net h (Get link)) as [resp|raw] eqn:Hn.
  - destruct (statusOK (StatusCode resp)) eqn:Hs.
    + destruct (Body resp) as [b|raw] eqn:Hb.
      * eexists; split; [exact (downloadDiagram_ok net _ _ resp b Hn Hs Hb)|].
        exact (FetchRead net h link resp b Hn Hs Hb).
      * eexists; split; [exact (downloadDiagram_unread net _ _ resp raw Hn Hs Hb)|].
        exact (FetchUnread net h link resp raw Hn Hs Hb).
    + eexists; split; [exact (downloadDiagram_status net _ _ resp Hn Hs)|].
      exact (FetchStatus net h link resp Hn Hs).
  - eexists; split; [exact (downloadDiagram_failed net _ _ raw Hn)|].
    exact (FetchFailed net h link raw Hn).
Qed.

(** [Render] never panics, and what it returns and the calls it makes
    follow one of the paths of [RenderPath]. *)
Lemma Render_path (net : Network) (m : manager) (desc : string)
      (format : DiagramFormat) (h : list Call) :
  exists r calls,
    Render net m desc format h = (Ret r, (h ++ calls)%list)
    /\ RenderPath net m desc format h r calls.
Proof.
  destruct (string_dec (strings.Trim desc " ") "") as [Hempty|Htext].
  { exists (failure ErrInvalidDiagramDescription), [].
    rewrite app_nil_r. split; [now apply Render_empty_description|now constructor]. }
  destruct (formatURLPart format) as [part|] eqn:Hpart.
  2:{ exists (failure ErrInvalidDiagramFormat), [].
      rewrite app_nil_r. split; [now apply Render_invalid_format|now constructor]. }
  destruct (net h (PostForm (serverAddr m ++ "/form") (strings.Trim desc " ")))
    as [posted|e1] eqn:Hpost.
  2:{ eexists _, _; split;
      [exact (Render_post_failed net m desc format part h Htext Hpart e1 Hpost)
      |exact (PathPostFailed net m desc format h part e1 Htext Hpart Hpost)]. }
  destruct (statusOK (StatusCode posted)) eqn:Hs1.
  2:{ eexists _, _; split;
      [exact (Render_post_status net m desc format part h Htext Hpart posted Hpost Hs1)
      |exact (PathPostStatus net m desc format h part posted Htext Hpart Hpost Hs1)]. }
  enough (exists r calls,
             Render net m desc format h
             = (Ret r, (h ++ PostForm (serverAddr m ++ "/form") (strings.Trim desc " ")
                          :: calls)%list)
             /\ ProbePath net m desc format h part (lastSegment (RequestURL posted))
                  r calls) as (r & calls & HR & HP).
  { exists r, (PostForm (serverAddr m ++ "/form") (strings.Trim desc " ") :: calls).
    split; [exact HR|]. now apply (PathProbed net m desc format h part posted). }
  destruct (downloadDiagram_Fetched net
              (serverAddr m ++ "/txt/" ++ lastSegment (RequestURL posted))
              (h ++ [PostForm (serverAddr m ++ "/form") (strings.Trim desc " ")])%list)
    as ([[file flag] e2] & Hd & Hf).
  destruct e2 as [e2|].
  { exists (errorOnly e2), [Get (serverAddr m ++ "/txt/" ++ lastSegment (RequestURL posted))].
    split.
    - rewrite (Render_probe_error net m desc format part h Htext Hpart posted
                 Hpost Hs1 file flag e2 _ Hd).
      now rewrite <- app_assoc.
    - now apply (ProbeError net m desc format h part _ file flag). }
  inversion Hf as [| | |probe body Hget Hs2 Hbody]; subst.
  rewrite (Render_after_probe net m desc format part h Htext Hpart posted
             Hpost Hs1 probe body Hget Hs2 Hbody).
  destruct ((StatusCode probe =? 400) && strings.HasPrefix (firstLine body) marker)
    eqn:Hdetect.
  { eexists _, _; split; [reflexivity|].
    apply andb_prop in Hdetect as [H400 Hmark]. rewrite H400 in Hf.
    now apply ProbeSyntax. }
  destruct (format =? DiagramFormatTXT) eqn:Htxt.
  { eexists _, _; split; [reflexivity|].
    apply Z.eqb_eq in Htxt.
    exact (ProbeTxt net m desc format h part _ body (StatusCode probe =? 400)
             Hf Hdetect Htxt). }
  apply Z.eqb_neq in Htxt.
  unfold lastStep.
  destruct (downloadDiagram_Fetched net
              (serverAddr m ++ "/" ++ part ++ "/" ++ lastSegment (RequestURL posted))
              (h ++ [PostForm (serverAddr m ++ "/form") (strings.Trim desc " ");
                     Get (serverAddr m ++ "/txt/" ++ lastSegment (RequestURL posted))])%list)
    as ([[file3 flag3] e3] & Hd3 & Hf3).
  rewrite (bind_Ret _ _ _ _ _ Hd3).
  destruct e3 as [e3|].
  - eexists _, _; split; [unfold ret; now rewrite <- app_assoc|].
    exact (ProbeFinalError net m desc format h part _ body (StatusCode probe =? 400)
             file3 flag3 e3 Hf Hdetect Htxt Hf3).
  - inversion Hf3 as [| | |resp3 image Hget3 Hs3 Hbody3]; subst.
    eexists _, _; split; [unfold ret; now rewrite <- app_assoc|].
    exact (ProbeFinal net m desc format h part _ body (StatusCode probe =? 400)
             image (StatusCode resp3 =? 400) Hf Hdetect Htxt Hf3).
Qed.


(** ** Splitting and trimming *)

Lemma genSplit_byte (c d : ascii) (rest : string) :
  strings.genSplit (String c rest) (String d "") 0
  = if Ascii.eqb d c
    then "" :: strings.genSplit rest (String d "") 0
    else match strings.genSplit rest (String d "") 0 with
         | piece :: more => String c piece :: more
         | [] => [String c ""]
         end.
Proof.
  cbn [strings.genSplit String.prefix String.length Nat.sub].
  destruct (ascii_dec d c) as [->|Hdc].
  - rewrite Ascii.eqb_refl. now destruct rest.
  - apply Ascii.eqb_neq in Hdc. now rewrite Hdc.
Qed.

Lemma Join_genSplit_byte (s : string) (d : ascii) :
  Join (strings.genSplit s (String d "") 0) (String d "") = s
  /\ Forall (fun piece => noByte d piece = true) (strings.genSplit s (String d "") 0).
Proof.
  induction s as [|c rest [IHjoin IHnone]].
  - split; [reflexivity|]. now repeat constructor.
  - rewrite genSplit_byte.
    pose proof (genSplit_nonempty rest (String d "") 0) as Hne.
    destruct (strings.genSplit rest (String d "") 0) as [|piece more];
      [contradiction|].
    destruct (Ascii.eqb d c) eqn:Hdc.
    + apply Ascii.eqb_eq in Hdc; subst c. split.
      * cbn [Join]. cbn [Join] in IHjoin. now rewrite IHjoin.
      * constructor; [reflexivity|exact IHnone].
    + split.
      * destruct more as [|next more]; cbn [Join] in *; now rewrite <- IHjoin.
      * inversion IHnone as [|? ? Hpiece Hmore]; subst.
        constructor; [|exact Hmore].
        cbn [noByte]. now rewrite Hdc, Hpiece.
Qed.


Lemma TrimLeft_split (s cutset : string) :
  exists pre,
    s = pre ++ strings.TrimLeft s cutset
    /\ allIn pre cutset = true
    /\ startsOutside (strings.TrimLeft s cutset) cutset = true.
Proof.
  induction s as [|c rest (pre & Hs & Hpre & Hout)].
  - now exists "".
  - cbn [strings.TrimLeft].
    destruct (strings.inCutset c cutset) eqn:Hc.
    + exists (String c pre). cbn [append allIn]. rewrite Hc, Hpre.
      now rewrite <- Hs.
    + exists "". cbn [append allIn startsOutside]. now rewrite Hc.
Qed.

Lemma TrimLeft_app (pre s cutset : string) :
  allIn pre cutset = true ->
  strings.TrimLeft (pre ++ s) cutset = strings.TrimLeft s cutset.
Proof.
  induction pre as [|c pre IH]; [reflexivity|].
  cbn [allIn append strings.TrimLeft].
  intros H; apply andb_prop in H as [Hc Hpre]. now rewrite Hc, IH.
Qed.

Lemma TrimLeft_fixed (s cutset : string) :
  startsOutside s cutset = true -> strings.TrimLeft s cutset = s.
Proof.
  destruct s as [|c rest]; [reflexivity|].
  cbn [startsOutside strings.TrimLeft].
  now destruct (strings.inCutset c cutset).
Qed.

Lemma TrimRight_split (s cutset : string) :
  exists post,
    s = strings.TrimRight s cutset ++ post /\ allIn post cutset = true.
Proof.
  induction s as [|c rest (post & Hs & Hpost)].
  - now exists "".
  - cbn [strings.TrimRight].
    destruct (strings.TrimRight rest cutset) as [|k kept] eqn:E.
    + destruct (strings.inCutset c cutset) eqn:Hc.
      * exists (String c rest). cbn [append allIn]. rewrite Hc.
        split; [reflexivity|]. cbn [append] in Hs. now rewrite Hs.
      * exists rest. cbn [append]. split; [reflexivity|].
        cbn [append] in Hs. now rewrite Hs.
    + exists post. cbn [append]. split; [|exact Hpost].
      cbn [append] in Hs. now rewrite <- Hs.
Qed.

Lemma TrimRight_app (s post cutset : string) :
  allIn post cutset = true ->
  strings.TrimRight (s ++ post) cutset = strings.TrimRight s cutset.
Proof.
  intros Hpost.
  assert (Hp : strings.TrimRight post cutset = "").
  { induction post as [|c post IH]; [reflexivity|].
    cbn [allIn] in Hpost. apply andb_prop in Hpost as [Hc Hrest].
    cbn [strings.TrimRight]. now rewrite (IH Hrest), Hc. }
  induction s as [|c s IH]; cbn [append strings.TrimRight]; [exact Hp|].
  now rewrite IH.
Qed.

Lemma TrimRight_fixed (s cutset : string) :
  noneIn s cutset = true -> strings.TrimRight s cutset = s.
Proof.
  induction s as [|c rest IH]; [reflexivity|].
  cbn [noneIn strings.TrimRight].
  intros H; apply andb_prop in H as [Hc Hrest].
  rewrite (IH Hrest).
  destruct rest; [|reflexivity].
  now destruct (strings.inCutset c cutset).
Qed.

Lemma TrimRight_head (c : ascii) (rest cutset : string) :
  strings.inCutset c cutset = false ->
  exists kept, strings.TrimRight (String c rest) cutset = String c kept.
Proof.
  intros Hc. cbn [strings.TrimRight].
  destruct (strings.TrimRight rest cutset); [|now eexists].
  rewrite Hc. now eexists.
Qed.

Lemma TrimRight_idempotent (s cutset : string) :
  strings.TrimRight (strings.TrimRight s cutset) cutset = strings.TrimRight s cutset.
Proof.
  induction s as [|c rest IH]; [reflexivity|].
  cbn [strings.TrimRight].
  destruct (strings.TrimRight rest cutset) as [|k kept] eqn:E.
  - destruct (strings.inCutset c cutset) eqn:Hc; [reflexivity|].
    cbn [strings.TrimRight]. now rewrite Hc.
  - change (strings.TrimRight (String c (String k kept)) cutset)
      with (match strings.TrimRight (String k kept) cutset with
            | "" => if strings.inCutset c cutset then "" else String c ""
            | kept' => String c kept'
            end).
    now rewrite IH.
Qed.

Lemma Trim_idempotent (s cutset : string) :
  strings.Trim (strings.Trim s cutset) cutset = strings.Trim s cutset.
Proof.
  unfold strings.Trim.
  destruct (TrimLeft_split s cutset) as (pre & _ & _ & Hout).
  destruct (strings.TrimLeft s cutset) as [|c rest] eqn:E; [reflexivity|].
  cbn [startsOutside] in Hout. apply negb_true_iff in Hout.
  destruct (TrimRight_head c rest cutset Hout) as (kept & Hk).
  rewrite Hk.
  rewrite (TrimLeft_fixed (String c kept) cutset)
    by (cbn [startsOutside]; now rewrite Hout).
  rewrite <- Hk. apply TrimRight_idempotent.
Qed.

(** ** What [Render] always does *)

Lemma HasPrefix_app (a b : string) : strings.HasPrefix (a ++ b) a = true.
Proof.
  unfold strings.HasPrefix.
  induction a as [|c a IH]; cbn [append String.prefix].
  - now destruct b.
  - destruct (ascii_dec c c) as [_|Hc]; [exact IH|contradiction].
Qed.

Lemma Fetched_error (net : Network) (h : list Call) (link : string)
      (file : option string) (flag : bool) (e : Error) :
  Fetched net h link (file, flag, Some e) ->
  file = None /\ flag = false
  /\ (PackageError e = Some ErrInternalError
      \/ e = newError (Some ErrServerIsUnavailable) None).
Proof.
  intros H; inversion H; subst; repeat split; auto.
Qed.

(** X1. [Render] never panics; it makes at most three calls, at most two
    for the TXT format; and every call is addressed to a link that begins
    with the configured server address. *)
Theorem Render_returns_within_three_calls
        (net : Network) (m : manager) (desc : string) (format : DiagramFormat)
        (h : list Call) :
  exists r calls,
    Render net m desc format h = (Ret r, (h ++ calls)%list)
    /\ (List.length calls <= 3)%nat
    /\ (format = DiagramFormatTXT -> (List.length calls <= 2)%nat)
    /\ Forall (fun c => strings.HasPrefix (callLink c) (serverAddr m) = true) calls.
Proof.
  destruct (Render_path net m desc format h) as (r & calls & HR & HP).
  exists r, calls. split; [exact HR|].
  destruct HP as [ | | | |part posted r calls _ _ _ _ HP];
    try (cbn [List.length]; repeat split; try lia;
         repeat constructor; apply HasPrefix_app).
  destruct HP; cbn [List.length]; repeat split; try lia; try contradiction;
    repeat constructor; apply HasPrefix_app.
Qed.

Lemma RenderPath_shape (net : Network) (m : manager) (desc : string)
      (format : DiagramFormat) (h : list Call) (r : RenderResult)
      (calls : list Call) :
  RenderPath net m desc format h r calls ->
  (exists file, r = mkRenderResult (Some file) None None)
  \/ (exists se,
        r = mkRenderResult None (Some se)
              (Some (newError (Some ErrInvalidDiagramDescription) None)))
  \/ (exists e k,
        r = errorOnly e /\ PackageError e = Some k
        /\ In k [ErrInternalError; ErrServerIsUnavailable;
                 ErrInvalidDiagramFormat; ErrInvalidDiagramDescription]).
Proof.
  assert (Hfetch : forall h' link file flag e,
             Fetched net h' link (file, flag, Some e) ->
             exists k, PackageError e = Some k
                       /\ In k [ErrInternalError; ErrServerIsUnavailable;
                                ErrInvalidDiagramFormat; ErrInvalidDiagramDescription]).
  { intros h' link file flag e Hf.
    destruct (Fetched_error _ _ _ _ _ _ Hf) as (_ & _ & [He| ->]).
    - exists ErrInternalError. split; [exact He|now left].
    - exists ErrServerIsUnavailable. split; [reflexivity|right; now left]. }
  intros HP.
  destruct HP as [ | | | |part posted r calls _ _ _ _ HP].
  - right; right. eexists _, _. split; [reflexivity|]. split; [reflexivity|].
    cbn; tauto.
  - right; right. eexists _, _. split; [reflexivity|]. split; [reflexivity|].
    cbn; tauto.
  - right; right. eexists _, _. split; [reflexivity|]. split; [reflexivity|].
    cbn; tauto.
  - right; right. eexists _, _. split; [reflexivity|]. split; [reflexivity|].
    cbn; tauto.
  - destruct HP as [file flag e Hf|body _ _|body flag _ _ _
                    |body flag file flag3 e _ _ _ Hf|body flag image flag3 _ _ _ _].
    + right; right. destruct (Hfetch _ _ _ _ _ Hf) as (k & Hk & Hin).
      now exists e, k.
    + right; left. now eexists.
    + left. now eexists.
    + right; right. destruct (Hfetch _ _ _ _ _ Hf) as (k & Hk & Hin).
      now exists e, k.
    + left. now eexists.
Qed.

(** X2. What [Render] returns has one of three shapes: a file alone; a
    syntax error with the invalid-description error and no file; or an
    error alone whose package error is one of the four kinds of [Render]. *)
Theorem Render_result_shape
        (net : Network) (m : manager) (desc : string) (format : DiagramFormat)
        (h : list Call) :
  exists r,
    fst (Render net m desc format h) = Ret r
    /\ ((exists file, r = mkRenderResult (Some file) None None)
        \/ (exists se,
              r = mkRenderResult None (Some se)
                    (Some (newError (Some ErrInvalidDiagramDescription) None)))
        \/ (exists e k,
              r = errorOnly e /\ PackageError e = Some k
              /\ In k [ErrInternalError; ErrServerIsUnavailable;
                       ErrInvalidDiagramFormat; ErrInvalidDiagramDescription])).
Proof.
  destruct (Render_path net m desc format h) as (r & calls & HR & HP).
  exists r. split; [now rewrite HR|].
  exact (RenderPath_shape net m desc format h r calls HP).
Qed.

(** X3. The text [Error()] gives for an error returned by [Render] is the
    fixed text of that error's own package error, one of the four kinds of
    [Render], whatever the text of the raw error is; the same holds for the
    error of [NewManager], whose package error is the invalid-address one. *)
Theorem error_text_is_the_package_text
        (net : Network) (m : manager) (desc : string) (format : DiagramFormat)
        (h : list Call) (pa : string -> RawErr + string) (addr : string)
        (rawText : RawErr -> string) :
  (exists r,
      fst (Render net m desc format h) = Ret r
      /\ forall e, err r = Some e ->
           exists k,
             PackageError e = Some k
             /\ Error_Error rawText e = PackageErr_text k
             /\ In k [ErrInternalError; ErrServerIsUnavailable;
                      ErrInvalidDiagramFormat; ErrInvalidDiagramDescription])
  /\ (forall e, snd (NewManager pa addr) = Some e ->
        PackageError e = Some ErrInvalidPlantUMLAddress
        /\ Error_Error rawText e = "invalid PlantUML server address").
Proof.
  split.
  - destruct (Render_path net m desc format h) as (r & calls & HR & HP).
    exists r. split; [now rewrite HR|].
    intros e He.
    destruct (RenderPath_shape net m desc format h r calls HP)
      as [(file & ->)|[(se & ->)|(e' & k & -> & Hk & Hin)]].
    + discriminate.
    + injection He as <-. exists ErrInvalidDiagramDescription.
      split; [reflexivity|]. split; [reflexivity|]. cbn; tauto.
    + injection He as <-. exists k. split; [exact Hk|]. split; [|exact Hin].
      unfold Error_Error. now rewrite Hk.
  - intros e He. pose proof (NewManager_cases pa addr) as HN.
    destruct (url.ParseRequestURI pa addr); rewrite HN in He.
    + injection He as <-. split; reflexivity.
    + discriminate.
Qed.

Lemma formatURLPart_None (format : DiagramFormat) :
  formatURLPart format = None <-> (format < 0 \/ 2 < format).
Proof.
  unfold formatURLPart, DiagramFormatTXT, DiagramFormatPNG, DiagramFormatSVG.
  destruct (format =? 0) eqn:E0; [apply Z.eqb_eq in E0; split; [discriminate|lia]|].
  destruct (format =? 1) eqn:E1; [apply Z.eqb_eq in E1; split; [discriminate|lia]|].
  destruct (format =? 2) eqn:E2; [apply Z.eqb_eq in E2; split; [discriminate|lia]|].
  apply Z.eqb_neq in E0, E1, E2. split; [lia|reflexivity].
Qed.

(** X4. A description with something else than spaces and a format value
    outside the three constants: [Render] returns the invalid-format error
    and makes no call. *)
Theorem unknown_format_rejected_without_call
        (net : Network) (m : manager) (desc : string) (format : DiagramFormat)
        (h : list Call) :
  allSpaces desc = false ->
  format < DiagramFormatTXT \/ DiagramFormatSVG < format ->
  Render net m desc format h = (Ret (failure ErrInvalidDiagramFormat), h).
Proof.
  intros Hdesc Hformat.
  apply Render_invalid_format.
  - intros Hempty. apply Trim_empty_iff in Hempty. congruence.
  - now apply formatURLPart_None.
Qed.

Lemma unknown_format_rejected_without_call_witness :
  Render unreachable client0 " Bob -> Alice" 3 []
  = (Ret (failure ErrInvalidDiagramFormat), []).
Proof.
  apply (unknown_format_rejected_without_call unreachable client0
           " Bob -> Alice" 3 []);
    [reflexivity|right; reflexivity].
Defined.

(** X5. [Render] reads only through [Trim]: spaces around the description
    change nothing, neither the result nor the calls. *)
Theorem Render_ignores_outer_spaces
        (net : Network) (m : manager) (desc : string) (format : DiagramFormat)
        (h : list Call) :
  Render net m (strings.Trim desc " ") format h = Render net m desc format h.
Proof.
  unfold Render. now rewrite Trim_idempotent.
Qed.

Lemma allIn_space (s : string) : allIn s " " = allSpaces s.
Proof.
  induction s as [|c rest IH]; [reflexivity|].
  cbn [allIn allSpaces]. now rewrite inCutset_space, IH.
Qed.

Lemma TrimRight_no_space_end (s : string) :
  url.HasSuffixByte (strings.TrimRight s " ") " " = false.
Proof.
  induction s as [|c rest IH]; [reflexivity|].
  cbn [strings.TrimRight].
  destruct (strings.TrimRight rest " ") as [|k kept] eqn:E.
  - rewrite inCutset_space. destruct (Ascii.eqb c " ") eqn:Hc; [reflexivity|].
    cbn [url.HasSuffixByte]. now rewrite Ascii.eqb_sym.
  - exact IH.
Qed.

(** What the trim of [Render] keeps: the description without the spaces
    at its two ends. *)
Lemma Trim_spaces_split (s : string) :
  exists pre post,
    s = pre ++ strings.Trim s " " ++ post
    /\ allSpaces pre = true /\ allSpaces post = true
    /\ startsOutside (strings.Trim s " ") " " = true
    /\ url.HasSuffixByte (strings.Trim s " ") " " = false.
Proof.
  unfold strings.Trim.
  destruct (TrimLeft_split s " ") as (pre & Hs & Hpre & Hout).
  destruct (TrimRight_split (strings.TrimLeft s " ") " ") as (post & Ht & Hpost).
  exists pre, post. rewrite allIn_space in Hpre, Hpost.
  split; [now rewrite <- Ht|].
  split; [exact Hpre|]. split; [exact Hpost|].
  split; [|apply TrimRight_no_space_end].
  destruct (strings.TrimLeft s " ") as [|c rest]; [reflexivity|].
  cbn [startsOutside] in Hout. apply negb_true_iff in Hout.
  destruct (TrimRight_head c rest " " Hout) as (kept & ->).
  cbn [startsOutside]. now rewrite Hout.
Qed.

(** X6. When [Render] calls the renderer at all, its first call posts to
    [/form] the description without the spaces at its two ends: a text that
    is not empty and neither begins nor ends with a space. *)
Theorem submitted_text_is_trimmed
        (net : Network) (m : manager) (desc : string) (format : DiagramFormat)
        (h : list Call) :
  exists r calls,
    Render net m desc format h = (Ret r, (h ++ calls)%list)
    /\ (calls = []
        \/ exists text more pre post,
             calls = PostForm (serverAddr m ++ "/form") text :: more
             /\ desc = pre ++ text ++ post
             /\ allSpaces pre = true /\ allSpaces post = true
             /\ text <> ""
             /\ startsOutside text " " = true
             /\ url.HasSuffixByte text " " = false).
Proof.
  destruct (Render_path net m desc format h) as (r & calls & HR & HP).
  exists r, calls. split; [exact HR|].
  destruct (Trim_spaces_split desc) as (pre & post & Hd & Hpre & Hpost & Hs & He).
  destruct HP as [ | |part e Ht _ _|part posted Ht _ _ _|part posted r calls Ht _ _ _ _];
    [now left|now left| | | ];
    right; eexists _, _, pre, post; (split; [reflexivity|]); now repeat split.
Qed.

Lemma ok_same (r : HttpResult) (a b : Response) :
  r = HttpOk a -> r = HttpOk b -> a = b.
Proof.
  congruence.
Qed.

Lemma Fetched_bad_status (net : Network) (h : list Call) (link : string)
      (x : option string * bool * option Error) (resp : Response) :
  Fetched net h link x ->
  net h (Get link) = HttpOk resp ->
  statusOK (StatusCode resp) = false ->
  x = (None, false, Some (newError (Some ErrServerIsUnavailable) None)).
Proof.
  intros Hf Hn Hbad.
  inversion Hf as [e He|resp' Hr _|resp' e Hr Hs _|resp' file Hr Hs _]; subst.
  - destruct (failed_not_ok _ _ _ Hn He).
  - reflexivity.
  - rewrite (ok_same _ _ _ Hr Hn) in Hs. congruence.
  - rewrite (ok_same _ _ _ Hr Hn) in Hs. congruence.
Qed.

(** The call [Hc] was answered with a status that is neither 200 nor 400:
    settle the position it has in the history. *)
Ltac bad_status Hc Hbad :=
  try rewrite app_nil_r in Hc;
  match goal with
  | H : _ = HttpFailed _ |- _ => destruct (failed_not_ok _ _ _ Hc H)
  | H : _ = HttpOk ?p, Hs : statusOK (StatusCode ?p) = true |- _ =>
      let E := fresh in
      pose proof (ok_same _ _ _ H Hc) as E; rewrite E in Hs; congruence
  | H : Fetched _ _ _ _ |- _ =>
      let E := fresh in
      pose proof (Fetched_bad_status _ _ _ _ _ H Hc Hbad) as E;
      first [discriminate E | injection E as; subst; split; reflexivity]
  | |- _ => split; reflexivity
  end.

(** X7. If any call [Render] makes is answered with a status other than
    200 and 400, [Render] stops at that call and returns the
    server-unavailable error. *)
Theorem bad_status_is_server_unavailable
        (net : Network) (m : manager) (desc : string) (format : DiagramFormat)
        (h h' pre post : list Call) (r : Go RenderResult) (c : Call)
        (resp : Response) :
  Render net m desc format h = (r, h') ->
  h' = (h ++ pre ++ c :: post)%list ->
  net (h ++ pre)%list c = HttpOk resp ->
  statusOK (StatusCode resp) = false ->
  r = Ret (failure ErrServerIsUnavailable) /\ post = [].
Proof.
  intros HR -> Hc Hbad.
  destruct (Render_path net m desc format h) as (r0 & calls & HR0 & HP).
  rewrite HR0 in HR. injection HR as <- Hcalls.
  apply app_same_head in Hcalls.
  destruct HP as [ | |part e _ _ Hpost|part posted _ _ Hpost Hs1
                  |part posted r0 calls _ _ Hpost Hs1 HP].
  - locate_in Hcalls.
  - locate_in Hcalls.
  - locate_in Hcalls. bad_status Hc Hbad.
  - locate_in Hcalls. rewrite app_nil_r in Hc.
    split; reflexivity.
  - destruct HP; locate_in Hcalls; bad_status Hc Hbad.
Qed.

Lemma bad_status_is_server_unavailable_witness :
  fst (Render probe500 client0 "Bob -> Alice" DiagramFormatSVG [])
  = Ret (failure ErrServerIsUnavailable)
  /\ @nil Call = [].
Proof.
  apply (bad_status_is_server_unavailable probe500 client0 "Bob -> Alice"
           DiagramFormatSVG []
           (snd (Render probe500 client0 "Bob -> Alice" DiagramFormatSVG []))
           [PostForm "http://renderer/form" "Bob -> Alice"] []
           (fst (Render probe500 client0 "Bob -> Alice" DiagramFormatSVG []))
           (Get "http://renderer/txt/ID")
           (mkResponse 500 "http://renderer/txt/ID" (ReadOk "Internal Server Error")));
    reflexivity.
Defined.

(** ** Syntax errors and the final fetch *)

(** X8. For each of the three formats, a probe answered 400 with a body
    whose first line carries the marker ends [Render] after two calls, with
    the syntax error parsed from that body and the invalid-description
    error; the handler then answers code 3 with the three fields of that
    syntax error. *)
Theorem marked_400_is_syntax_failure
        (net : Network) (m : manager) (desc : string) (format : DiagramFormat)
        (part : string) (h : list Call) (posted probe : Response) (body : string) :
  let text := strings.Trim desc " " in
  let post := PostForm (serverAddr m ++ "/form") text in
  let get := Get (serverAddr m ++ "/txt/" ++ lastSegment (RequestURL posted)) in
  text <> "" ->
  formatURLPart format = Some part ->
  net h post = HttpOk posted ->
  statusOK (StatusCode posted) = true ->
  net (h ++ [post])%list get = HttpOk probe ->
  StatusCode probe = 400 ->
  Body probe = ReadOk body ->
  strings.HasPrefix (firstLine body) marker = true ->
  Render net m desc format h
  = (Ret (mkRenderResult None (Some (parsedError body))
            (Some (newError (Some ErrInvalidDiagramDescription) None))),
     (h ++ [post; get])%list)
  /\ SyntaxRawError (parsedError body) = body
  /\ forall name : string,
       api.formatOf name = Some format ->
       api.handlerRenderDiagram net m (Some (api.mkPrms desc name)) h
       = (Ret (api.mkReply 500
                 (api.Envelope false 3
                    (Some (api.mkErrorData (LineNumber (parsedError body))
                             (LineWithError (parsedError body)) body)))),
          (h ++ [post; get])%list).
Proof.
  intros text post get Htext Hpart Hpost Hs1 Hget H400 Hbody Hmark.
  assert (Hs2 : statusOK (StatusCode probe) = true) by (now rewrite H400).
  assert (HR : Render net m desc format h
               = (Ret (mkRenderResult None (Some (parsedError body))
                         (Some (newError (Some ErrInvalidDiagramDescription) None))),
                  (h ++ [post; get])%list)).
  { rewrite (Render_after_probe net m desc format part h Htext Hpart posted
               Hpost Hs1 probe body Hget Hs2 Hbody).
    now rewrite H400, Hmark. }
  split; [exact HR|]. split; [reflexivity|].
  intros name Hname. unfold api.handlerRenderDiagram.
  cbn [api.Format api.Data]. rewrite Hname.
  now rewrite (bind_Ret _ _ _ _ _ HR).
Qed.

Lemma marked_400_is_syntax_failure_witness :
  Render (renderer400 body5 "SVG") client0 "Bob -> Alice" DiagramFormatSVG []
  = (Ret (mkRenderResult None (Some (parsedError body5))
            (Some (newError (Some ErrInvalidDiagramDescription) None))),
     calls5)
  /\ SyntaxRawError (parsedError body5) = body5
  /\ forall name : string,
       api.formatOf name = Some DiagramFormatSVG ->
       api.handlerRenderDiagram (renderer400 body5 "SVG") client0
         (Some (api.mkPrms "Bob -> Alice" name)) []
       = (Ret (api.mkReply 500
                 (api.Envelope false 3
                    (Some (api.mkErrorData (LineNumber (parsedError body5))
                             (LineWithError (parsedError body5)) body5)))),
          calls5).
Proof.
  apply (marked_400_is_syntax_failure (renderer400 body5 "SVG") client0
           "Bob -> Alice" DiagramFormatSVG "svg" []
           (mkResponse 200 "http://renderer/png/ID" (ReadOk ""))
           (mkResponse 400 "http://renderer/txt/ID" (ReadOk body5)) body5);
    try reflexivity; discriminate.
Defined.

Lemma Fetched_read (net : Network) (h : list Call) (link : string)
      (file : string) (flag : bool) :
  Fetched net h link (Some file, flag, None) ->
  exists resp,
    net h (Get link) = HttpOk resp /\ statusOK (StatusCode resp) = true
    /\ Body resp = ReadOk file /\ flag = (StatusCode resp =? 400).
Proof.
  intros Hf. inversion Hf as [| | |resp file' Hn Hs Hb]; subst.
  exists resp. repeat split; assumption.
Qed.

(** X9. [Render] returns a syntax error only after exactly two calls, the
    second of which, the plaintext probe, was answered with status 400 and
    a body whose first line carries the marker; the syntax error is the one
    parsed from that body.  A probe answered 200 never yields one. *)
Theorem syntax_failure_needs_marked_400
        (net : Network) (m : manager) (desc : string) (format : DiagramFormat)
        (h : list Call) :
  exists r calls,
    Render net m desc format h = (Ret r, (h ++ calls)%list)
    /\ forall se,
         syntaxError r = Some se ->
         exists post link probe body,
           calls = [post; Get link]
           /\ net (h ++ [post])%list (Get link) = HttpOk probe
           /\ StatusCode probe = 400
           /\ Body probe = ReadOk body
           /\ strings.HasPrefix (firstLine body) marker = true
           /\ se = parsedError body.
Proof.
  destruct (Render_path net m desc format h) as (r & calls & HR & HP).
  exists r, calls. split; [exact HR|].
  intros se Hse.
  destruct HP as [ | | | |part posted r calls _ _ _ _ HP]; try discriminate Hse.
  destruct HP as [file flag e Hf|body Hf Hmark| | | ]; try discriminate Hse.
  injection Hse as <-.
  destruct (Fetched_read _ _ _ _ _ Hf) as (probe & Hget & _ & Hbody & H400).
  symmetry in H400. apply Z.eqb_eq in H400.
  eexists _, _, probe, body. split; [reflexivity|]. now repeat split.
Qed.

(** X10. For PNG and SVG: when the probe showed no syntax error and the
    fetch of the format is answered with status 200 or 400 and a readable
    body, [Render] returns that body after three calls, and the handler
    answers status 200 with exactly those bytes.  The status 400 of this
    last fetch is not looked at. *)
Theorem final_fetch_is_returned
        (net : Network) (m : manager) (desc : string) (format : DiagramFormat)
        (part : string) (h : list Call) (posted probe fetched : Response)
        (body image : string) :
  let text := strings.Trim desc " " in
  let imgID := lastSegment (RequestURL posted) in
  let post := PostForm (serverAddr m ++ "/form") text in
  let get := Get (serverAddr m ++ "/txt/" ++ imgID) in
  let fetch := Get (serverAddr m ++ "/" ++ part ++ "/" ++ imgID) in
  text <> "" ->
  formatURLPart format = Some part ->
  format <> DiagramFormatTXT ->
  net h post = HttpOk posted ->
  statusOK (StatusCode posted) = true ->
  net (h ++ [post])%list get = HttpOk probe ->
  statusOK (StatusCode probe) = true ->
  Body probe = ReadOk body ->
  (StatusCode probe = 400 -> strings.HasPrefix (firstLine body) marker = false) ->
  net (h ++ [post; get])%list fetch = HttpOk fetched ->
  statusOK (StatusCode fetched) = true ->
  Body fetched = ReadOk image ->
  Render net m desc format h
  = (Ret (mkRenderResult (Some image) None None), (h ++ [post; get; fetch])%list)
  /\ forall name : string,
       api.formatOf name = Some format ->
       api.handlerRenderDiagram net m (Some (api.mkPrms desc name)) h
       = (Ret (api.mkReply 200 (api.Bytes image)), (h ++ [post; get; fetch])%list).
Proof.
  intros text imgID post get fetch Htext Hpart Hfmt Hpost Hs1 Hget Hs2 Hbody
         Hmark Hfetch Hs3 Himage.
  assert (HR : Render net m desc format h
               = (Ret (mkRenderResult (Some image) None None),
                  (h ++ [post; get; fetch])%list)).
  { rewrite (Render_after_probe net m desc format part h Htext Hpart posted
               Hpost Hs1 probe body Hget Hs2 Hbody).
    replace ((StatusCode probe =? 400)
             && strings.HasPrefix (firstLine body) marker) with false.
    2:{ destruct (StatusCode probe =? 400) eqn:E; [|reflexivity].
        apply Z.eqb_eq in E. now rewrite (Hmark E). }
    apply Z.eqb_neq in Hfmt. rewrite Hfmt.
    unfold lastStep.
    rewrite (bind_Ret _ _ _ _ _
               (downloadDiagram_ok net _ _ fetched image Hfetch Hs3 Himage)).
    unfold ret. now rewrite <- app_assoc. }
  split; [exact HR|].
  intros name Hname. unfold api.handlerRenderDiagram.
  cbn [api.Format api.Data]. rewrite Hname.
  now rewrite (bind_Ret _ _ _ _ _ HR).
Qed.

Lemma final_fetch_is_returned_witness :
  Render (renderer400 "oops" "PNG") client0 "Bob -> Alice" DiagramFormatPNG []
  = (Ret (mkRenderResult (Some "PNG") None None),
     calls5 ++ [Get "http://renderer/png/ID"])%list
  /\ forall name : string,
       api.formatOf name = Some DiagramFormatPNG ->
       api.handlerRenderDiagram (renderer400 "oops" "PNG") client0
         (Some (api.mkPrms "Bob -> Alice" name)) []
       = (Ret (api.mkReply 200 (api.Bytes "PNG")),
          calls5 ++ [Get "http://renderer/png/ID"])%list.
Proof.
  apply (final_fetch_is_returned (renderer400 "oops" "PNG") client0
           "Bob -> Alice" DiagramFormatPNG "png" []
           (mkResponse 200 "http://renderer/png/ID" (ReadOk ""))
           (mkResponse 400 "http://renderer/txt/ID" (ReadOk "oops"))
           (mkResponse 200 "http://renderer/png/ID" (ReadOk "PNG"))
           "oops" "PNG");
    try reflexivity; discriminate.
Defined.

(** ** Lines, segments and the fields of a syntax error *)

(** X11. Splitting on a one-byte separator, as [getErrorLineNumber] does
    on line feeds and [getDiagramID] on slashes, loses nothing: there is at
    least one piece, no piece contains the separator, and joining the
    pieces with the separator gives the text back. *)
Theorem Split_pieces_rejoin (s : string) (d : ascii) :
  strings.Split s (String d "") <> []
  /\ Forall (fun piece => noByte d piece = true) (strings.Split s (String d ""))
  /\ Join (strings.Split s (String d "")) (String d "") = s.
Proof.
  split; [apply Split_nonempty; discriminate|].
  unfold strings.Split.
  destruct (Join_genSplit_byte s d) as [Hjoin Hnone]. now split.
Qed.


Lemma digit_is_plain (c : ascii) (d : Z) :
  strconv.digit c = Some d ->
  d = Z.of_nat (nat_of_ascii c) - 48
  /\ 0 <= d <= 9
  /\ strings.inCutset c marker = false
  /\ strings.inCutset c trailerCutset = false
  /\ Ascii.eqb c "-" = false /\ Ascii.eqb c "+" = false.
Proof.
  destruct c as [[] [] [] [] [] [] [] []]; vm_compute; intros H;
    try discriminate H; injection H as <-;
    repeat split; discriminate.
Qed.

Lemma allDigits_noneIn (ds : string) :
  allDigits ds = true -> noneIn ds trailerCutset = true.
Proof.
  induction ds as [|c rest IH]; [reflexivity|].
  cbn [allDigits noneIn]. destruct (strconv.digit c) as [d|] eqn:E; [|discriminate].
  intros H. destruct (digit_is_plain c d E) as (_ & _ & _ & -> & _).
  now rewrite (IH H).
Qed.

Lemma digits_fold (ds : string) (acc : Z) :
  allDigits ds = true ->
  0 <= acc ->
  strconv.digits ds acc
  = Some (fold_left (fun a c => a * 10 + (Z.of_nat (nat_of_ascii c) - 48))
            (list_ascii_of_string ds) acc)
  /\ 0 <= fold_left (fun a c => a * 10 + (Z.of_nat (nat_of_ascii c) - 48))
            (list_ascii_of_string ds) acc.
Proof.
  revert acc; induction ds as [|c rest IH]; intros acc Hds Hacc.
  - now split.
  - cbn [allDigits] in Hds. cbn [strconv.digits list_ascii_of_string fold_left].
    destruct (strconv.digit c) as [d|] eqn:E; [|discriminate].
    destruct (digit_is_plain c d E) as (-> & Hd & _).
    apply IH; [exact Hds|lia].
Qed.

(** X13. A first line made of the marker, a run of decimal digits whose
    value fits an [int], and the trailer [) ]]: the line number reported is
    the value of the digits, leading zeros included. *)
Theorem line_number_of_decimal_text (body ds : string) :
  firstLine body = marker ++ ds ++ ") ]" ->
  ds <> "" ->
  allDigits ds = true ->
  decimalValue ds <= strconv.maxInt ->
  getErrorLineNumber body
  = Ret (Some {| SyntaxRawError := body;
                 LineNumber := decimalValue ds;
                 LineWithError := strings.TrimLeft (lastLine body) lastLineCutset |}).
Proof.
  intros Hfirst Hne Hds Hmax.
  rewrite getErrorLineNumber_eq, Hfirst, HasPrefix_app.
  unfold parsedError. rewrite Hfirst.
  rewrite (TrimLeft_app marker (ds ++ ") ]") marker eq_refl).
  destruct ds as [|c rest]; [contradiction|].
  pose proof Hds as Hds'. cbn [allDigits] in Hds'.
  destruct (strconv.digit c) as [d|] eqn:E; [|discriminate].
  destruct (digit_is_plain c d E) as (_ & _ & Hm & _ & Hminus & Hplus).
  rewrite TrimLeft_fixed
    by (cbn [append startsOutside]; now rewrite Hm).
  rewrite (TrimRight_app (String c rest) ") ]" trailerCutset eq_refl).
  rewrite (TrimRight_fixed _ _ (allDigits_noneIn _ Hds)).
  destruct (digits_fold (String c rest) 0 Hds (Z.le_refl 0)) as [Hval Hpos].
  fold (decimalValue (String c rest)) in Hval, Hpos.
  unfold strconv.Atoi. rewrite Hminus, Hplus. cbn [orb].
  rewrite Hval.
  replace ((strconv.minInt <=? decimalValue (String c rest))
           && (decimalValue (String c rest) <=? strconv.maxInt)) with true;
    [reflexivity|].
  symmetry. apply andb_true_iff. split; apply Z.leb_le; [|exact Hmax].
  assert (strconv.minInt <= 0) by (vm_compute; discriminate). lia.
Qed.

Lemma line_number_of_decimal_text_witness :
  getErrorLineNumber ("[From string (line 0042) ]" ++ LF ++ " Syntax error: ?")
  = Ret (Some {| SyntaxRawError :=
                   "[From string (line 0042) ]" ++ LF ++ " Syntax error: ?";
                 LineNumber := decimalValue "0042";
                 LineWithError :=
                   strings.TrimLeft
                     (lastLine ("[From string (line 0042) ]" ++ LF
                                ++ " Syntax error: ?"))
                     lastLineCutset |})
  /\ decimalValue "0042" = 42.
Proof.
  split; [|reflexivity].
  apply (line_number_of_decimal_text
           ("[From string (line 0042) ]" ++ LF ++ " Syntax error: ?") "0042");
    [reflexivity|discriminate|reflexivity|vm_compute; discriminate].
Defined.

(** X14. The offending text of a syntax error is what is left of the last
    line once its leading bytes that occur in [ Syntax error: ] are
    dropped: the last line is those bytes followed by the text, and the
    text does not begin with such a byte. *)
Theorem offending_text_is_trimmed_last_line (body : string) (se : SyntaxError) :
  getErrorLineNumber body = Ret (Some se) ->
  SyntaxRawError se = body
  /\ exists dropped,
       lastLine body = dropped ++ LineWithError se
       /\ allIn dropped lastLineCutset = true
       /\ startsOutside (LineWithError se) lastLineCutset = true.
Proof.
  rewrite getErrorLineNumber_eq.
  destruct (strings.HasPrefix (firstLine body) marker); [|discriminate].
  intros [= <-]. split; [reflexivity|].
  exact (TrimLeft_split (lastLine body) lastLineCutset).
Qed.

Lemma offending_text_is_trimmed_last_line_witness :
  SyntaxRawError (parsedError body5) = body5
  /\ exists dropped,
       lastLine body5 = dropped ++ LineWithError (parsedError body5)
       /\ allIn dropped lastLineCutset = true
       /\ startsOutside (LineWithError (parsedError body5)) lastLineCutset = true.
Proof.
  apply (offending_text_is_trimmed_last_line body5 (parsedError body5)).
  rewrite getErrorLineNumber_eq. reflexivity.
Defined.

(** X15. When the last line is [ Syntax error: ] followed by a message
    that begins with a byte outside that prefix, the offending text is the
    message. *)
Theorem offending_text_is_the_message (body msg : string) (se : SyntaxError) :
  getErrorLineNumber body = Ret (Some se) ->
  lastLine body = lastLineCutset ++ msg ->
  startsOutside msg lastLineCutset = true ->
  LineWithError se = msg.
Proof.
  rewrite getErrorLineNumber_eq.
  destruct (strings.HasPrefix (firstLine body) marker); [|discriminate].
  intros [= <-] Hlast Hmsg. cbn [LineWithError parsedError].
  rewrite Hlast, (TrimLeft_app lastLineCutset msg lastLineCutset eq_refl).
  now apply TrimLeft_fixed.
Qed.

Lemma offending_text_is_the_message_witness :
  LineWithError (parsedError bodyUnknown) = "Unknown keyword".
Proof.
  apply (offending_text_is_the_message bodyUnknown "Unknown keyword"
           (parsedError bodyUnknown));
    [rewrite getErrorLineNumber_eq; reflexivity|reflexivity|reflexivity].
Defined.


Lemma Atoi_range (s : string) (v : Z) :
  strconv.Atoi s = Some v -> strconv.minInt <= v <= strconv.maxInt.
Proof.
  unfold strconv.Atoi. destruct s as [|c rest]; [discriminate|].
  destruct (if Ascii.eqb c "-" || Ascii.eqb c "+" then rest else String c rest);
    [discriminate|].
  destruct (strconv.digits _ 0) as [n|]; [|discriminate].
  destruct ((strconv.minInt <=? (if Ascii.eqb c "-" then - n else n))
            && ((if Ascii.eqb c "-" then - n else n) <=? strconv.maxInt)) eqn:E;
    [|discriminate].
  intros [= <-]. apply andb_prop in E as [E1 E2].
  apply Z.leb_le in E1, E2. now split.
Qed.

Lemma Atoi_of_digits (ds : string) :
  ds <> "" ->
  allDigits ds = true ->
  strconv.Atoi ds
  = if decimalValue ds <=? strconv.maxInt then Some (decimalValue ds) else None.
Proof.
  intros Hne Hds.
  destruct ds as [|c rest]; [contradiction|].
  pose proof Hds as Hds'. cbn [allDigits] in Hds'.
  destruct (strconv.digit c) as [d|] eqn:E; [|discriminate].
  destruct (digit_is_plain c d E) as (_ & _ & _ & _ & Hminus & Hplus).
  destruct (digits_fold (String c rest) 0 Hds (Z.le_refl 0)) as [Hval Hpos].
  fold (decimalValue (String c rest)) in Hval, Hpos.
  unfold strconv.Atoi. rewrite Hminus, Hplus. cbn [orb].
  rewrite Hval.
  replace (strconv.minInt <=? decimalValue (String c rest)) with true;
    [reflexivity|].
  symmetry. apply Z.leb_le.
  assert (strconv.minInt <= 0) by (vm_compute; discriminate). lia.
Qed.

Lemma numberText_of_decimal (line ds : string) :
  line = marker ++ ds ++ ") ]" ->
  ds <> "" ->
  allDigits ds = true ->
  strings.TrimRight (strings.TrimLeft line marker) trailerCutset = ds.
Proof.
  intros -> Hne Hds.
  rewrite (TrimLeft_app marker (ds ++ ") ]") marker eq_refl).
  destruct ds as [|c rest]; [contradiction|].
  pose proof Hds as Hds'. cbn [allDigits] in Hds'.
  destruct (strconv.digit c) as [d|] eqn:E; [|discriminate].
  destruct (digit_is_plain c d E) as (_ & _ & Hm & _).
  rewrite TrimLeft_fixed
    by (cbn [append startsOutside]; now rewrite Hm).
  rewrite (TrimRight_app (String c rest) ") ]" trailerCutset eq_refl).
  exact (TrimRight_fixed _ _ (allDigits_noneIn _ Hds)).
Qed.

(** X16. The line number of a syntax error always fits an [int64]: the
    conversion [int64(lineNumber)] loses nothing; and when the first line
    is the marker, a run of decimal digits and the trailer [) ]], with
    digits whose value is beyond that range, the line number is 0. *)
Theorem line_number_fits_int64 (body : string) (se : SyntaxError) :
  getErrorLineNumber body = Ret (Some se) ->
  - 2 ^ 63 <= LineNumber se <= 2 ^ 63 - 1
  /\ forall ds : string,
       firstLine body = marker ++ ds ++ ") ]" ->
       ds <> "" ->
       allDigits ds = true ->
       2 ^ 63 - 1 < decimalValue ds ->
       LineNumber se = 0.
Proof.
  rewrite getErrorLineNumber_eq.
  destruct (strings.HasPrefix (firstLine body) marker); [|discriminate].
  intros [= <-]. cbn [LineNumber parsedError]. split.
  - destruct (strconv.Atoi _) as [n|] eqn:E.
    + exact (Atoi_range _ _ E).
    + split; vm_compute; discriminate.
  - intros ds Hfirst Hne Hds Hbig.
    rewrite (numberText_of_decimal _ ds Hfirst Hne Hds).
    rewrite (Atoi_of_digits ds Hne Hds).
    replace (decimalValue ds <=? strconv.maxInt) with false; [reflexivity|].
    symmetry. apply Z.leb_gt. exact Hbig.
Qed.

Lemma line_number_fits_int64_witness :
  firstLine bodyHuge = marker ++ "99999999999999999999" ++ ") ]"
  /\ 2 ^ 63 - 1 < decimalValue "99999999999999999999"
  /\ - 2 ^ 63 <= LineNumber (parsedError bodyHuge) <= 2 ^ 63 - 1
  /\ LineNumber (parsedError bodyHuge) = 0.
Proof.
  assert (H : getErrorLineNumber bodyHuge = Ret (Some (parsedError bodyHuge)))
    by (rewrite getErrorLineNumber_eq; reflexivity).
  split; [reflexivity|]. split; [reflexivity|].
  destruct (line_number_fits_int64 bodyHuge (parsedError bodyHuge) H)
    as [Hrange Hzero].
  split; [exact Hrange|].
  apply (Hzero "99999999999999999999");
    [reflexivity|discriminate|reflexivity|reflexivity].
Defined.

Lemma genSplit_no_separator (s : string) (d : ascii) :
  noByte d s = true -> strings.genSplit s (String d "") 0 = [s].
Proof.
  induction s as [|c rest IH]; [reflexivity|].
  cbn [noByte]. intros H; apply andb_prop in H as [Hc Hrest].
  apply negb_true_iff in Hc.
  now rewrite genSplit_byte, Hc, (IH Hrest).
Qed.

Lemma HasPrefix_head (s pre : string) (c : ascii) :
  strings.HasPrefix s (String c pre) = true -> exists rest, s = String c rest.
Proof.
  unfold strings.HasPrefix. destruct s as [|k rest]; [discriminate|].
  cbn [String.prefix]. destruct (ascii_dec c k) as [->|]; [|discriminate].
  now eexists.
Qed.

(** X17. A diagnostic of one line, with no line feed in it: its first
    line is also its last, so the offending text reported is the marker
    line itself, which is the whole body. *)
Theorem one_line_diagnostic (body : string) (se : SyntaxError) :
  noByte (ascii_of_nat 10) body = true ->
  getErrorLineNumber body = Ret (Some se) ->
  firstLine body = body /\ lastLine body = body /\ LineWithError se = body.
Proof.
  intros Hone.
  assert (Hsplit : strings.Split body LF = [body])
    by exact (genSplit_no_separator body (ascii_of_nat 10) Hone).
  assert (Hfirst : firstLine body = body) by (unfold firstLine; now rewrite Hsplit).
  assert (Hlast : lastLine body = body) by (unfold lastLine; now rewrite Hsplit).
  rewrite getErrorLineNumber_eq, Hfirst.
  destruct (strings.HasPrefix body marker) eqn:Hm; [|discriminate].
  intros [= <-]. split; [reflexivity|]. split; [exact Hlast|].
  cbn [LineWithError parsedError]. rewrite Hlast.
  destruct (HasPrefix_head body _ _ Hm) as (rest & ->).
  reflexivity.
Qed.

Lemma one_line_diagnostic_witness :
  firstLine lineE5 = lineE5 /\ lastLine lineE5 = lineE5
  /\ LineWithError (parsedError lineE5) = lineE5.
Proof.
  apply (one_line_diagnostic lineE5 (parsedError lineE5));
    [reflexivity|rewrite getErrorLineNumber_eq; reflexivity].
Defined.

(** ** The request handler, for every request *)

Lemma respond_other_error (e : Error) (h : list Call) :
  PackageError e = Some ErrInternalError
  \/ e = newError (Some ErrServerIsUnavailable) None ->
  api.respond (errorOnly e) h
  = (Ret (api.mkReply 500 (api.Envelope false 4 None)), h).
Proof.
  intros [He| ->]; [|reflexivity].
  unfold api.respond, api.isInvalidDescription. cbn [err errorOnly].
  now rewrite He.
Qed.

Lemma wellFormed_code4 :
  wellFormedReply (api.mkReply 500 (api.Envelope false 4 None)).
Proof.
  cbn. repeat split; now right.
Qed.

(** X18. Whatever the request and the renderer, the handler makes at most
    the calls of [Render] and either answers in the agreed form (the file
    with status 200, or status 500 with code 2 or 4 and no data, or code 3
    with data), or panics on the nil syntax error; the panic happens
    before any call and only for a request with a known format whose
    description is empty or spaces only. *)
Theorem handler_reply_or_blank_panic
        (net : Network) (m : manager) (decoded : option api.prmsRenderDiagram)
        (h : list Call) :
  exists out calls,
    api.handlerRenderDiagram net m decoded h = (out, (h ++ calls)%list)
    /\ (List.length calls <= 3)%nat
    /\ match out with
       | Ret reply => wellFormedReply reply
       | Panic reason =>
           reason = nil_dereference /\ calls = []
           /\ exists prms format,
                decoded = Some prms
                /\ api.formatOf (api.Format prms) = Some format
                /\ allSpaces (api.Data prms) = true
       end.
Proof.
  unfold api.handlerRenderDiagram.
  destruct decoded as [prms|].
  2:{ eexists _, []. rewrite app_nil_r. split; [reflexivity|].
      split; [cbn; lia|]. cbn. repeat split; now left. }
  destruct (api.formatOf (api.Format prms)) as [format|] eqn:Hname.
  2:{ eexists _, []. rewrite app_nil_r. split; [reflexivity|].
      split; [cbn; lia|]. exact wellFormed_code4. }
  destruct (Render_path net m (api.Data prms) format h) as (r & calls & HR & HP).
  rewrite (bind_Ret _ _ _ _ _ HR).
  destruct HP as [Hblank| | | |part posted r calls _ _ _ _ HP].
  - eexists _, []. split; [reflexivity|]. split; [cbn; lia|].
    split; [reflexivity|]. split; [reflexivity|].
    exists prms, format. split; [reflexivity|]. split; [exact Hname|].
    now apply Trim_empty_iff.
  - eexists _, _. split; [reflexivity|]. split; [cbn; lia|]. exact wellFormed_code4.
  - eexists _, _. split; [reflexivity|]. split; [cbn; lia|]. exact wellFormed_code4.
  - eexists _, _. split; [reflexivity|]. split; [cbn; lia|]. exact wellFormed_code4.
  - destruct HP as [file flag e Hf|body _ _|body flag _ _ _
                    |body flag file flag3 e _ _ _ Hf|body flag image flag3 _ _ _ _].
    + destruct (Fetched_error _ _ _ _ _ _ Hf) as (_ & _ & He).
      rewrite (respond_other_error e _ He).
      eexists _, _. split; [reflexivity|]. split; [cbn; lia|]. exact wellFormed_code4.
    + eexists _, _. split; [reflexivity|]. split; [cbn; lia|].
      cbn. now repeat split.
    + eexists _, _. split; [reflexivity|]. split; [cbn; lia|]. reflexivity.
    + destruct (Fetched_error _ _ _ _ _ _ Hf) as (_ & _ & He).
      rewrite (respond_other_error e _ He).
      eexists _, _. split; [reflexivity|]. split; [cbn; lia|]. exact wellFormed_code4.
    + eexists _, _. split; [reflexivity|]. split; [cbn; lia|]. reflexivity.
Qed.

Lemma formatOf_None (name : string) :
  api.formatOf name = None <-> name <> "svg" /\ name <> "png" /\ name <> "txt".
Proof.
  unfold api.formatOf.
  destruct (String.eqb_spec name "svg") as [->|H1];
    [split; [discriminate|intros (H & _); contradiction]|].
  destruct (String.eqb_spec name "png") as [->|H2];
    [split; [discriminate|intros (_ & H & _); contradiction]|].
  destruct (String.eqb_spec name "txt") as [->|H3];
    [split; [discriminate|intros (_ & _ & H); contradiction]|].
  now split.
Qed.

(** X19. A request whose format name is none of [svg], [png], [txt],
    compared byte for byte, is answered with code 4 and no data, and the
    renderer is not called. *)
Theorem unknown_format_name_rejected
        (net : Network) (m : manager) (prms : api.prmsRenderDiagram)
        (h : list Call) :
  api.Format prms <> "svg" ->
  api.Format prms <> "png" ->
  api.Format prms <> "txt" ->
  api.handlerRenderDiagram net m (Some prms) h
  = (Ret (api.mkReply 500 (api.Envelope false 4 None)), h).
Proof.
  intros H1 H2 H3. unfold api.handlerRenderDiagram.
  now rewrite (proj2 (formatOf_None (api.Format prms)) (conj H1 (conj H2 H3))).
Qed.

Lemma unknown_format_name_rejected_witness :
  api.handlerRenderDiagram unreachable client0
    (Some (api.mkPrms "Bob -> Alice" "PNG")) []
  = (Ret (api.mkReply 500 (api.Envelope false 4 None)), []).
Proof.
  apply (unknown_format_name_rejected unreachable client0
           (api.mkPrms "Bob -> Alice" "PNG") []); discriminate.
Defined.

(** ** Addresses [NewManager] accepts *)

Lemma unescapePath_plain (s : string) :
  noByte "%" s = true -> url.unescapePath s = inr s.
Proof.
  induction s as [|c rest IH]; [reflexivity|].
  cbn [noByte]. intros H; apply andb_prop in H as [Hc Hrest].
  apply negb_true_iff in Hc. rewrite Ascii.eqb_sym in Hc.
  cbn [url.unescapePath]. now rewrite Hc, (IH Hrest).
Qed.

Lemma noByte_dropLast (c : ascii) (s : string) :
  noByte c s = true -> noByte c (url.dropLast s) = true.
Proof.
  induction s as [|d rest IH]; [reflexivity|].
  cbn [noByte]. intros H; apply andb_prop in H as [Hd Hrest].
  destruct rest as [|k rest]; [reflexivity|].
  change (url.dropLast (String d (String k rest)))
    with (String d (url.dropLast (String k rest))).
  cbn [noByte]. now rewrite Hd, (IH Hrest).
Qed.

Lemma noByte_Cut (c sep : ascii) (s : string) :
  noByte c s = true -> noByte c (fst (url.Cut s sep)) = true.
Proof.
  induction s as [|d rest IH]; [reflexivity|].
  cbn [noByte url.Cut]. intros H; apply andb_prop in H as [Hd Hrest].
  destruct (Ascii.eqb d sep); [reflexivity|].
  specialize (IH Hrest). destruct (url.Cut rest sep) as [before after].
  cbn [fst noByte] in *. now rewrite Hd, IH.
Qed.

Lemma HasSuffixByte_nonempty (s : string) (c : ascii) :
  url.HasSuffixByte s c = true -> s <> "".
Proof.
  now destruct s.
Qed.

(** X20. An address that begins with a slash and holds neither a control
    byte nor a percent sign is accepted, though it names no scheme and no
    host: [NewManager] returns a client that keeps the address as given,
    and no error. *)
Theorem NewManager_accepts_absolute_path
        (pa : string -> RawErr + string) (path : string) :
  url.stringContainsCTLByte path = false ->
  noByte "%" path = true ->
  NewManager pa (String "/" path) = (Some (mkManager (String "/" path)), None).
Proof.
  intros Hctl Hpct.
  pose proof (NewManager_cases pa (String "/" path)) as HN.
  enough (H : exists u, url.ParseRequestURI pa (String "/" path) = inr u)
    by (destruct H as (u & Hu); now rewrite Hu in HN).
  clear HN. unfold url.ParseRequestURI.
  replace (url.stringContainsCTLByte (String "/" path)) with false
    by (cbn [url.stringContainsCTLByte]; now rewrite Hctl).
  change (String.eqb (String "/" path) "") with false.
  change (String.eqb (String "/" path) "*") with false.
  change (url.getScheme (String "/" path)) with
    (@inr RawErr (string * string) ("", String "/" path)).
  cbn [url.ToLower].
  assert (Hrooted : forall rest' q f,
             noByte "%" rest' = true ->
             exists u,
               (let '(rest, rawQuery, forceQuery) := (String "/" rest', q, f) in
                if negb (strings.HasPrefix rest "/") then
                  if negb (String.eqb "" "")
                  then inr (url.mkURL "" rest "" "" rawQuery forceQuery false)
                  else inl (UrlParseError "invalid URI for request")
                else if negb (String.eqb "" "") && strings.HasPrefix rest "//" then
                  let authority := substring 2 (String.length rest - 2) rest in
                  let '(authority, rest) :=
                    if 0 <? url.Count authority "/"
                    then let '(before, after) := url.Cut authority "/" in
                         (before, String "/" after)
                    else (authority, "") in
                  match pa authority with
                  | inl e => inl e
                  | inr host =>
                      url.setPath (url.mkURL "" "" host "" rawQuery forceQuery false) rest
                  end
                else
                  url.setPath (url.mkURL "" "" "" "" rawQuery forceQuery
                                 (negb (String.eqb "" ""))) rest) = inr u).
  { intros rest' q f Hp. cbv beta iota.
    rewrite HasPrefix_slash. cbn [negb Ascii.eqb Bool.eqb andb String.eqb].
    change (Ascii.eqb "/" "/") with true. cbn [negb andb].
    unfold url.setPath.
    rewrite (unescapePath_plain (String "/" rest'))
      by (cbn [noByte]; now rewrite Hp).
    now eexists. }
  destruct (url.HasSuffixByte (String "/" path) "?"
            && (url.Count (String "/" path) "?" =? 1)) eqn:Hq.
  - apply andb_prop in Hq as [Hsuf _].
    destruct path as [|k rest]; [discriminate Hsuf|].
    change (url.dropLast (String "/" (String k rest)))
      with (String "/" (url.dropLast (String k rest))).
    apply Hrooted. now apply noByte_dropLast.
  - change (url.Cut (String "/" path) "?")
      with (let '(before, after) := url.Cut path "?" in (String "/" before, after)).
    pose proof (noByte_Cut "%" "?" path Hpct) as Hcut.
    destruct (url.Cut path "?") as [before after]. cbn [fst] in Hcut.
    apply Hrooted. exact Hcut.
Qed.

Lemma NewManager_accepts_absolute_path_witness :
  NewManager noAuthority "/plantuml?theme=dark"
  = (Some (mkManager "/plantuml?theme=dark"), None).
Proof.
  apply (NewManager_accepts_absolute_path noAuthority "plantuml?theme=dark");
    reflexivity.
Defined.

(** ** Bodies that cannot be read *)

Lemma Fetched_unreadable (net : Network) (h : list Call) (link : string)
      (x : option string * bool * option Error) (resp : Response) (e : RawErr) :
  Fetched net h link x ->
  net h (Get link) = HttpOk resp ->
  statusOK (StatusCode resp) = true ->
  Body resp = ReadFailed e ->
  x = (None, false, Some (newError (Some ErrInternalError) (Some e))).
Proof.
  intros Hf Hn Hs Hb.
  inversion Hf as [e' He|resp' Hr Hs'|resp' e' Hr _ Hb'|resp' file Hr _ Hb']; subst.
  - destruct (failed_not_ok _ _ _ Hn He).
  - rewrite (ok_same _ _ _ Hr Hn) in Hs'. congruence.
  - rewrite (ok_same _ _ _ Hr Hn) in Hb'. congruence.
  - rewrite (ok_same _ _ _ Hr Hn) in Hb'. congruence.
Qed.

(** The fetch [Hc] was answered with a body that cannot be read: settle
    the position it has in the history. *)
Ltac unreadable Hc Hs Hb :=
  match goal with
  | H : Fetched _ _ _ _ |- _ =>
      let E := fresh in
      pose proof (Fetched_unreadable _ _ _ _ _ _ H Hc Hs Hb) as E;
      first [discriminate E | injection E as; subst; split; reflexivity]
  end.

(** X21. If a fetch [Render] makes, the probe or the fetch of the format,
    is answered with status 200 or 400 but its body cannot be read,
    [Render] stops at that call and returns the internal error with the
    read failure as raw error. *)
Theorem unreadable_body_is_internal_error
        (net : Network) (m : manager) (desc : string) (format : DiagramFormat)
        (h h' pre post : list Call) (r : Go RenderResult) (link : string)
        (resp : Response) (e : RawErr) :
  Render net m desc format h = (r, h') ->
  h' = (h ++ pre ++ Get link :: post)%list ->
  net (h ++ pre)%list (Get link) = HttpOk resp ->
  statusOK (StatusCode resp) = true ->
  Body resp = ReadFailed e ->
  r = Ret (errorOnly (newError (Some ErrInternalError) (Some e))) /\ post = [].
Proof.
  intros HR -> Hc Hs Hb.
  destruct (Render_path net m desc format h) as (r0 & calls & HR0 & HP).
  rewrite HR0 in HR. injection HR as <- Hcalls.
  apply app_same_head in Hcalls.
  destruct HP as [ | |part e1 _ _ Hpost|part posted _ _ Hpost Hs1
                  |part posted r0 calls _ _ Hpost Hs1 HP].
  - destruct pre; discriminate Hcalls.
  - destruct pre; discriminate Hcalls.
  - destruct pre as [|? [|? ?]]; discriminate Hcalls.
  - destruct pre as [|? [|? ?]]; discriminate Hcalls.
  - destruct HP;
      (destruct pre as [|p0 pre]; [discriminate Hcalls|]);
      injection Hcalls as <- Hcalls;
      locate_in Hcalls; unreadable Hc Hs Hb.
Qed.

Lemma unreadable_body_is_internal_error_witness :
  fst (Render brokenProbe client0 "Bob -> Alice" DiagramFormatTXT [])
  = Ret (errorOnly (newError (Some ErrInternalError)
                      (Some (BodyReadError "unexpected EOF"))))
  /\ @nil Call = [].
Proof.
  apply (unreadable_body_is_internal_error brokenProbe client0 "Bob -> Alice"
           DiagramFormatTXT []
           (snd (Render brokenProbe client0 "Bob -> Alice" DiagramFormatTXT []))
           [PostForm "http://renderer/form" "Bob -> Alice"] []
           (fst (Render brokenProbe client0 "Bob -> Alice" DiagramFormatTXT []))
           "http://renderer/txt/ID"
           (mkResponse 200 "http://renderer/txt/ID"
              (ReadFailed (BodyReadError "unexpected EOF")))
           (BodyReadError "unexpected EOF"));
    reflexivity.
Defined.
